(** * data-bs-cripto: trend detection and retry-protected acquisition

    A shallow embedding of the decision logic of
    [analisis_tendencias.py], [binance_p2p.py] and [cripto_data.py].

    Numbers.  The Python code computes with binary floating point (Python
    [float], numpy [float64]).  The embedding computes with exact rationals
    ([Q], compared with [==]); the one special float value the code can
    produce on the paths followed here, NaN, is written [None] in the type
    [flotante].  Rounding error of the float operations is therefore outside
    the model; [round(x, n)] is the decimal rounding to [n] places, ties to
    even.

    Library routines.  [pandas] grouping, mean and standard deviation and
    [numpy.polyfit] are embedded by what they compute: grouping by sorted key,
    arithmetic mean that skips NaN, sample standard deviation (one degree of
    freedom removed), and the least-squares line in closed form.  The square
    root used by the standard deviation is a parameter [raiz] of the
    analyzer. *)

From Stdlib Require Import ZArith QArith Qabs Qround String Bool Lia Lqa List.
From Stdlib Require Import Sorting.Sorted.
Import ListNotations.

Local Open Scope Q_scope.

(** ** Numbers shared by the three modules *)

(** A float that may be NaN. *)
Definition flotante : Type := option Q.

Definition Qlt_bool (x y : Q) : bool := negb (Qle_bool y x).

Definition suma (l : list Q) : Q := fold_right Qplus 0 l.

Definition de_nat (n : nat) : Q := inject_Z (Z.of_nat n).

(** Arithmetic mean of a non-empty list of numbers. *)
Definition media (l : list Q) : Q := suma l / de_nat (length l).

(** [Series.mean()] with its default [skipna=True]: NaN entries are left
    out; with no entry left the mean is NaN. *)
Definition media_skipna (l : list flotante) : flotante :=
  match flat_map (fun v => match v with Some q => [q] | None => [] end) l with
  | [] => None
  | q :: qs => Some (media (q :: qs))
  end.

(** [round(x, ndigits)]: nearest multiple of [10^-ndigits], ties to even. *)
Definition redondear (x : Q) (ndigits : nat) : Q :=
  let escala := inject_Z (10 ^ Z.of_nat ndigits) in
  let y := x * escala in
  let f := Qfloor y in
  let z := match (y - inject_Z f) ?= (1 # 2) with
           | Lt => f
           | Gt => (f + 1)%Z
           | Eq => if Z.even f then f else (f + 1)%Z
           end in
  inject_Z z / escala.

(** How a call ends: it returns a value, it raises, or the input lies in a
    region the embedding leaves out (each use says which region). *)
Inductive salida (A : Type) : Type :=
| Retorna (a : A)
| Lanza (excepcion : string)
| FueraDelModelo.
Arguments Retorna {A} a.
Arguments Lanza {A} excepcion.
Arguments FueraDelModelo {A}.

(** ** analisis_tendencias.py *)
Module Tendencias.

(** A stored price document: its [datetime] entry, as seconds since the
    epoch (the code parses the string with [pd.to_datetime]), and its numeric
    entries by field name. *)
Record documento : Type := {
  datetime : Z;
  valores : list (string * Q)
}.

Definition obtener (campo : string) (d : documento) : option Q :=
  option_map snd (find (fun kv => String.eqb (fst kv) campo) (valores d)).

(** [campo in df.columns]: the columns of [pd.DataFrame(datos)] are the keys
    that occur in some document. *)
Definition en_columnas (campo : string) (datos : list documento) : bool :=
  existsb (fun d => match obtener campo d with Some _ => true | None => false end) datos.

(** [df[campo]] when every document carries the field (no NaN cell). *)
Fixpoint columna (campo : string) (datos : list documento) : option (list Q) :=
  match datos with
  | [] => Some []
  | d :: resto =>
      match obtener campo d, columna campo resto with
      | Some v, Some vs => Some (v :: vs)
      | _, _ => None
      end
  end.

Definition calcular_variacion_porcentual (valor_inicial valor_final : Q) : Q :=
  if Qeq_bool valor_inicial 0 then 0
  else ((valor_final - valor_inicial) / valor_inicial) * 100.

(** [dt.floor('H')] *)
Definition piso_hora (t : Z) : Z := ((t / 3600) * 3600)%Z.

(** [groupby('hora')]: one group per distinct key, groups in ascending key
    order, rows of a group in their original order. *)
Fixpoint insertar (k : Z) (v : Q) (grupos : list (Z * list Q)) : list (Z * list Q) :=
  match grupos with
  | [] => [(k, [v])]
  | (k', vs) :: resto =>
      if (k <? k')%Z then (k, [v]) :: grupos
      else if (k =? k')%Z then (k', v :: vs) :: resto
      else (k', vs) :: insertar k v resto
  end.

Definition agrupar (filas : list (Z * Q)) : list (Z * list Q) :=
  fold_right (fun fila g => insertar (fst fila) (snd fila) g) [] filas.

Record estadistica : Type := {
  hora : Z;
  mean : Q;
  std : flotante;
  count : nat;
  min : Q;
  max : Q
}.

Definition minimo_lista (x : Q) (l : list Q) : Q :=
  fold_left (fun m v => if Qlt_bool v m then v else m) l x.

(** Python's [max] over a non-empty list [x :: l]: the first largest entry. *)
Definition maximo_lista (x : Q) (l : list Q) : Q :=
  fold_left (fun m v => if Qlt_bool m v then v else m) l x.

Section Analizador.

(** The float square root. *)
Variable raiz : Q -> Q.

Definition varianza_muestral (vs : list Q) : Q :=
  let m := media vs in
  suma (map (fun v => (v - m) * (v - m)) vs) / (de_nat (length vs) - 1).

(** pandas [std] (ddof = 1): NaN for a group of fewer than two rows. *)
Definition desviacion (vs : list Q) : flotante :=
  if (length vs <? 2)%nat then None else Some (raiz (varianza_muestral vs)).

(** [agg(['mean', 'std', 'count', 'min', 'max'])] of one group. *)
Definition agregar (g : Z * list Q) : estadistica :=
  let vs := snd g in
  {| hora := fst g;
     mean := media vs;
     std := desviacion vs;
     count := length vs;
     min := match vs with [] => 0 | v :: r => minimo_lista v r end;
     max := match vs with [] => 0 | v :: r => maximo_lista v r end |}.

Definition stats_por_hora (datos : list documento) (vals : list Q) : list estadistica :=
  map agregar (agrupar (combine (map (fun d => piso_hora (datetime d)) datos) vals)).

(** [np.arange(n)] *)
Definition arange (n : nat) : list Q := map de_nat (seq 0 n).

Definition productos (x y : list Q) : list Q :=
  map (fun p => fst p * snd p) (combine x y).

(** [np.polyfit(x, y, 1)]: the least-squares line through the points
    [(x_i, y_i)], as (slope, intercept), in exact arithmetic.  The routine
    computes in binary floating point and its slope differs from this one by
    rounding error; where the exact slope is 0 the sign of the computed slope
    is that of the error, and nothing below is stated about that case. *)
Definition polyfit1 (x y : list Q) : Q * Q :=
  let n := de_nat (length x) in
  let pendiente :=
    (n * suma (productos x y) - suma x * suma y)
    / (n * suma (productos x x) - suma x * suma x) in
  (pendiente, (suma y - pendiente * suma x) / n).

Inductive direccion : Type := alcista | bajista | neutral.

(** The slope and direction of lines 158-168. *)
Definition tendencia_lineal (medias : list Q) : Q * direccion :=
  let x := arange (length medias) in
  if (1 <? length x)%nat then
    let pendiente := fst (polyfit1 x medias) in
    (pendiente, if Qlt_bool 0 pendiente then alcista else bajista)
  else (0, neutral).

(** Lines 174-179: absolute variation between each pair of consecutive
    hourly means. *)
Fixpoint variaciones_entre_horas (medias : list Q) : list Q :=
  match medias with
  | valor_anterior :: ((valor_actual :: _) as resto) =>
      Qabs (calcular_variacion_porcentual valor_anterior valor_actual)
      :: variaciones_entre_horas resto
  | _ => []
  end.

(** Line 181 *)
Definition variacion_maxima_entre_horas (medias : list Q) : Q :=
  match variaciones_entre_horas medias with
  | [] => 0
  | v :: vs => maximo_lista v vs
  end.

(** Line 171 *)
Definition volatilidad_promedio (stats : list estadistica) : flotante :=
  media_skipna (map std stats).

(** The alert paragraph appended to the message when the trend is
    significant (lines 206-226). *)
Record aviso : Type := {
  sentido : string;
  aviso_variacion : Q;
  aviso_umbral : Q;
  aviso_recomendacion : option string
}.

(** The message.  The two short messages are the source's texts; the
    report of lines 187-195 is kept as the values its template prints. *)
Inductive mensaje : Type :=
| Texto (s : string)
| Informe (campo : string) (horas : nat) (primer_valor ultimo_valor variacion_total : Q)
    (direccion_tendencia : direccion) (pendiente : Q) (volatilidad : flotante)
    (variacion_maxima : Q) (alerta : option aviso).

(** The [price_info] text, as the values it prints. *)
Record info_precio : Type := {
  info_valor_inicial : Q;
  info_valor_final : Q;
  info_volatilidad : flotante
}.

Record detalles : Type := {
  asset : string;
  trend_type : string;
  variation : Q;
  price_info : info_precio;
  recommendation : string
}.

(** What the function returns: a tuple of three components on the two early
    exits, of four otherwise. *)
Inductive resultado : Type :=
| Tupla3 (hay_tendencia : bool) (variacion : Q) (msg : mensaje)
| Tupla4 (hay_tendencia : bool) (variacion : Q) (msg : mensaje) (det : detalles).

(** Lines 209-216 and 219-226: the recommendation for a significant move. *)
Definition recomendacion (campo : string) (sube : bool) : option string :=
  if String.eqb campo "bol2usdt" then
    Some (if sube then "Posible oportunidad de VENTA de USDT (precio alto)"
          else "Posible oportunidad de COMPRA de USDT (precio bajo)")%string
  else if String.eqb campo "btc2usd" then
    Some (if sube then "Posible oportunidad de VENTA de BTC (precio alto)"
          else "Posible oportunidad de COMPRA de BTC (precio bajo)")%string
  else None.

(** Lines 149-243, for a column [vals] without NaN. *)
Definition analizar_columna (datos : list documento) (campo : string)
    (vals : list Q) (umbral_variacion : Q) : resultado :=
  let primer_valor := hd 0 vals in
  let ultimo_valor := last vals 0 in
  let variacion_total := calcular_variacion_porcentual primer_valor ultimo_valor in
  let stats := stats_por_hora datos vals in
  let medias := map mean stats in
  let '(pendiente, direccion_tendencia) := tendencia_lineal medias in
  let volatilidad := volatilidad_promedio stats in
  let variacion_maxima := variacion_maxima_entre_horas medias in
  let hay_tendencia :=
    Qle_bool umbral_variacion (Qabs variacion_total)
    || Qle_bool umbral_variacion variacion_maxima in
  let sube := Qlt_bool 0 variacion_total in
  let recomendado := if hay_tendencia then recomendacion campo sube else None in
  let alerta :=
    if hay_tendencia then
      Some {| sentido := if sube then "ALCISTA" else "BAJISTA";
              aviso_variacion := variacion_total;
              aviso_umbral := umbral_variacion;
              aviso_recomendacion := recomendado |}
    else None in
  Tupla4 hay_tendencia variacion_total
    (Informe campo (length stats) primer_valor ultimo_valor variacion_total
       direccion_tendencia pendiente volatilidad variacion_maxima alerta)
    {| asset := if String.eqb campo "bol2usdt" then "USDT/BOB"
                else if String.eqb campo "usdt2bol" then "BOB/USDT" else "BTC/USD";
       trend_type := if sube then "ALCISTA" else "BAJISTA";
       variation := variacion_total;
       price_info := {| info_valor_inicial := primer_valor;
                        info_valor_final := ultimo_valor;
                        info_volatilidad := volatilidad |};
       recommendation := match recomendado with Some r => r | None => "" end |}.

(** [detectar_tendencia_significativa(datos, campo, umbral_variacion)].
    [datos] is [None] for Python's [None].  Left out of the model
    ([FueraDelModelo]): a request for the [datetime] column itself, and a
    field that some documents carry and others lack (pandas fills the gaps
    with NaN).  The Telegram call of lines 228-241 does not change the
    returned tuple and is given below by [envio_telegram]. *)
Definition detectar_tendencia_significativa (datos : option (list documento))
    (campo : string) (umbral_variacion : Q) : salida resultado :=
  match datos with
  | None => Retorna (Tupla3 false 0 (Texto "Datos insuficientes para análisis"))
  | Some datos =>
      if (length datos <? 2)%nat then
        Retorna (Tupla3 false 0 (Texto "Datos insuficientes para análisis"))
      else if String.eqb campo "datetime" then FueraDelModelo
      else if negb (en_columnas campo datos) then
        Retorna (Tupla3 false 0 (Texto ("El campo " ++ campo ++ " no existe en los datos")))
      else
        match columna campo datos with
        | None => FueraDelModelo
        | Some vals => Retorna (analizar_columna datos campo vals umbral_variacion)
        end
  end.

(** Lines 228-238: the alert handed to the notifier, if any. *)
Definition envio_telegram (notificar : bool) (r : resultado) : option detalles :=
  match r with
  | Tupla4 true _ _ det => if notificar then Some det else None
  | _ => None
  end.

(** Unpacking [a, b, c, d = f(...)]: [ValueError] when [f] returned a tuple
    of three. *)
Definition desempaquetar4 (r : salida resultado) : salida (bool * Q * mensaje * detalles) :=
  match r with
  | Retorna (Tupla4 h v m d) => Retorna (h, v, m, d)
  | Retorna (Tupla3 _ _ _) => Lanza "ValueError"
  | Lanza e => Lanza e
  | FueraDelModelo => FueraDelModelo
  end.

Definition ligar {A B : Type} (x : salida A) (f : A -> salida B) : salida B :=
  match x with
  | Retorna a => f a
  | Lanza e => Lanza e
  | FueraDelModelo => FueraDelModelo
  end.

Record entrada : Type := {
  entrada_hay_tendencia : bool;
  entrada_detalles : option detalles
}.

Record resultados : Type := {
  res_bol2usdt : entrada;
  res_usdt2bol : entrada;
  res_btc2usd : entrada
}.

Definition sin_tendencia : entrada :=
  {| entrada_hay_tendencia := false; entrada_detalles := None |}.

(** [analizar_tendencias()], from the documents that
    [obtener_datos_ultimas_horas] returned ([None] on a storage error). *)
Definition analizar_tendencias (datos : option (list documento)) : salida resultados :=
  let vacio := {| res_bol2usdt := sin_tendencia; res_usdt2bol := sin_tendencia;
                  res_btc2usd := sin_tendencia |} in
  match datos with
  | None => Retorna vacio
  | Some [] => Retorna vacio
  | Some _ =>
      ligar (desempaquetar4 (detectar_tendencia_significativa datos "bol2usdt" 2))
        (fun '(hay_tendencia, _, _, det) =>
      ligar (desempaquetar4 (detectar_tendencia_significativa datos "usdt2bol" 2))
        (fun '(hay_tendencia_venta, _, _, detalles_venta) =>
      ligar (desempaquetar4 (detectar_tendencia_significativa datos "btc2usd" 5))
        (fun '(hay_tendencia_btc, _, _, detalles_btc) =>
      Retorna
        {| res_bol2usdt := {| entrada_hay_tendencia := hay_tendencia;
                              entrada_detalles := Some det |};
           res_usdt2bol := {| entrada_hay_tendencia := hay_tendencia_venta;
                              entrada_detalles := Some detalles_venta |};
           res_btc2usd := {| entrada_hay_tendencia := hay_tendencia_btc;
                             entrada_detalles := Some detalles_btc |} |})))
  end.

End Analizador.

End Tendencias.

(** ** binance_p2p.py *)
Module BinanceP2P.

(** A normalised offer (one row of the DataFrame). *)
Record oferta : Type := {
  precio : Q;
  cantidad_disponible : Q;
  limite_min : Q;
  limite_max : Q;
  metodos_pago : list string;
  comerciante : string;
  completadas : Z;
  tasa_completadas : Q;
  verificado : bool
}.

(** The parameters that go into the request payload. *)
Record solicitud : Type := {
  fiat : string;
  crypto : string;
  trade_type : string;
  page_size : Z;
  payment_methods : list string;
  only_verified : bool
}.

(** What one [requests.post] gives: an exception, or a response with its
    status code and body.  The body is given already normalised into offers;
    [None] is a body on which [response.json()] or the extraction of lines
    86-99 raises. *)
Inductive respuesta : Type :=
| ErrorTransporte
| Http (status_code : Z) (cuerpo : option (list oferta)).

(** The upstream API: the answer to the [k]-th request ever made. *)
Definition api : Type := nat -> solicitud -> respuesta.

(** The effects of a fetch: requests made so far, and the arguments of the
    [time.sleep] calls, oldest first. *)
Record mundo : Type := {
  llamadas : nat;
  esperas : list Z
}.

Definition mundo_inicial : mundo := {| llamadas := 0; esperas := [] |}.

(** [sort_values(by='precio', ascending=...)].  Rows of equal price keep
    their order here; the default sort of pandas does not promise that, and
    nothing below depends on it. *)
Fixpoint insertar_oferta (ascending : bool) (o : oferta) (l : list oferta) : list oferta :=
  match l with
  | [] => [o]
  | e :: r =>
      if (if ascending then Qle_bool (precio o) (precio e)
          else Qle_bool (precio e) (precio o))
      then o :: e :: r
      else e :: insertar_oferta ascending o r
  end.

Definition sort_values (ascending : bool) (l : list oferta) : list oferta :=
  fold_right (insertar_oferta ascending) [] l.

(** The body of the [try] (lines 73-118) for one response: the returned
    pair (sorted DataFrame, raw data), or [None] when the attempt fails.  A
    200 response without offers fails too: the DataFrame built from an empty
    list has no [precio] column and [sort_values] raises [KeyError], which
    the [except] clause catches. *)
Definition intento (trade_type : string) (r : respuesta)
    : option (list oferta * list oferta) :=
  match r with
  | ErrorTransporte => None
  | Http status_code cuerpo =>
      if (status_code =? 200)%Z then
        match cuerpo with
        | None => None
        | Some [] => None
        | Some ofertas =>
            Some (sort_values (String.eqb trade_type "BUY") ofertas, ofertas)
        end
      else None
  end.

(** [time.sleep(secs)]: [ValueError] on a negative argument; otherwise the
    argument is recorded. *)
Definition dormir (secs : Z) (w : mundo) : salida mundo :=
  if (secs <? 0)%Z then Lanza "ValueError"
  else Retorna {| llamadas := llamadas w; esperas := esperas w ++ [secs] |}.

Section Reintentos.

Variable fuente : api.
Variable sol : solicitud.
Variable retry_delay : Z.

(** The [while retry_count < max_retries] loop, by the number of attempts
    left, [restantes = max_retries - retry_count].  The [time.sleep] of line
    125 stands outside the [try]: what it raises leaves the function. *)
Fixpoint reintentar (restantes : nat) (w : mundo)
    : salida (option (list oferta * list oferta)) * mundo :=
  match restantes with
  | O => (Retorna None, w)
  | S r =>
      let w1 := {| llamadas := S (llamadas w); esperas := esperas w |} in
      match intento (trade_type sol) (fuente (llamadas w) sol) with
      | Some par => (Retorna (Some par), w1)
      | None =>
          match r with
          | O => reintentar r w1
          | S _ =>
              match dormir retry_delay w1 with
              | Retorna w2 => reintentar r w2
              | Lanza e => (Lanza e, w1)
              | FueraDelModelo => (FueraDelModelo, w1)
              end
          end
      end
  end.

End Reintentos.

(** [obtener_ofertas_p2p_binance]; [None] is the pair [(None, None)]. *)
Definition obtener_ofertas_p2p_binance (fuente : api) (sol : solicitud)
    (max_retries retry_delay : Z) (w : mundo)
    : salida (option (list oferta * list oferta)) * mundo :=
  reintentar fuente sol retry_delay (Z.to_nat max_retries) w.

(** [df.head(n)] *)
Definition head (n : Z) (l : list oferta) : list oferta :=
  if (0 <=? n)%Z then firstn (Z.to_nat n) l
  else firstn (length l - Z.to_nat (- n)) l.

(** [calcular_precio_promedio(df, num_ofertas)] *)
Definition calcular_precio_promedio (df : option (list oferta)) (num_ofertas : Z)
    : flotante :=
  match df with
  | None => Some 0
  | Some [] => Some 0
  | Some l =>
      let num_ofertas := Z.min num_ofertas (Z.of_nat (length l)) in
      match map precio (head num_ofertas l) with
      | [] => None
      | p :: ps => Some (redondear (media (p :: ps)) 2)
      end
  end.

End BinanceP2P.

(** ** cripto_data.py *)
Module CriptoData.
Import BinanceP2P.

(** The document built by [obtener_datos_cripto]. *)
Record muestra : Type := {
  datetime : Z;
  btc2usd : Q;
  bol2usdt : flotante;
  usdt2bol : flotante;
  bol2btc : flotante
}.

Definition solicitud_usdt (trade_type : string) : solicitud :=
  {| fiat := "BOB"; crypto := "USDT"; trade_type := trade_type; page_size := 10;
     payment_methods := []; only_verified := true |}.

(** [obtener_datos_cripto()].  [ahora] is the clock reading,
    [precio_btc] what [obtener_precio_bitcoin_usd()] returns.  The function
    has no [try]: what a fetch raises leaves it. *)
Definition obtener_datos_cripto (ahora : Z) (precio_btc : option Q)
    (fuente : api) (w : mundo) : salida (option muestra) * mundo :=
  let bitcoin_usd := match precio_btc with Some p => p | None => 0 end in
  match obtener_ofertas_p2p_binance fuente (solicitud_usdt "BUY") 3 60 w with
  | (Lanza e, w1) => (Lanza e, w1)
  | (FueraDelModelo, w1) => (FueraDelModelo, w1)
  | (Retorna None, w1) => (Retorna None, w1)
  | (Retorna (Some (ofertas_bob_usdt, _)), w1) =>
      let bob_usdt := calcular_precio_promedio (Some ofertas_bob_usdt) 10 in
      match obtener_ofertas_p2p_binance fuente (solicitud_usdt "SELL") 3 60 w1 with
      | (Lanza e, w2) => (Lanza e, w2)
      | (FueraDelModelo, w2) => (FueraDelModelo, w2)
      | (Retorna None, w2) => (Retorna None, w2)
      | (Retorna (Some (ofertas_usdt_bob, _)), w2) =>
          let usdt_bob := calcular_precio_promedio (Some ofertas_usdt_bob) 10 in
          let bob_btc :=
            if Qlt_bool 0 bitcoin_usd
            then option_map (fun b => b / bitcoin_usd) bob_usdt
            else Some 0 in
          (Retorna (Some {| datetime := ahora;
                            btc2usd := redondear bitcoin_usd 2;
                            bol2usdt := bob_usdt;
                            usdt2bol := usdt_bob;
                            bol2btc := option_map (fun b => redondear b 8) bob_btc |}), w2)
      end
  end.

(** [guardar_datos_mongodb]: whether the insert was made, and the
    collection afterwards; [mongo_disponible] says whether connecting and
    inserting succeed. *)
Definition guardar_datos_mongodb (mongo_disponible : bool) (coleccion : list muestra)
    (datos : muestra) : bool * list muestra :=
  if mongo_disponible then (true, coleccion ++ [datos]) else (false, coleccion).

(** [tarea_programada()]: the collection and the effects after one cycle.
    Without a sample the task returns at once; an exception is caught and
    logged by the [except] clause of lines 181-182. *)
Definition tarea_programada (ahora : Z) (precio_btc : option Q) (fuente : api)
    (mongo_disponible : bool) (coleccion : list muestra) (w : mundo)
    : list muestra * mundo :=
  match obtener_datos_cripto ahora precio_btc fuente w with
  | (Retorna (Some datos_cripto), w') =>
      (snd (guardar_datos_mongodb mongo_disponible coleccion datos_cripto), w')
  | (_, w') => (coleccion, w')
  end.

End CriptoData.

(** ** Reading the analyzer's answer *)

(** Number of samples handed to the analyzer ([None] has none). *)
Definition numero_muestras (datos : option (list Tendencias.documento)) : nat :=
  match datos with
  | None => 0
  | Some l => length l
  end.

(** The requested field is absent from the data: no document carries it
    (the [datetime] entry is in every document). *)
Definition campo_ausente (campo : string) (datos : option (list Tendencias.documento)) : Prop :=
  campo <> "datetime"%string /\
  forall l d, datos = Some l -> In d l -> Tendencias.obtener campo d = None.

(** Every document carries the field, with the values [vals] in order. *)
Definition campo_presente (campo : string) (datos : list Tendencias.documento)
    (vals : list Q) : Prop :=
  campo <> "datetime"%string /\ Tendencias.columna campo datos = Some vals.

(** Number of components of the returned tuple. *)
Definition componentes (r : Tendencias.resultado) : nat :=
  match r with
  | Tendencias.Tupla3 _ _ _ => 3
  | Tendencias.Tupla4 _ _ _ _ => 4
  end.

Definition significativa (r : Tendencias.resultado) : bool :=
  match r with
  | Tendencias.Tupla3 h _ _ => h
  | Tendencias.Tupla4 h _ _ _ => h
  end.

Definition variacion_devuelta (r : Tendencias.resultado) : Q :=
  match r with
  | Tendencias.Tupla3 _ v _ => v
  | Tendencias.Tupla4 _ v _ _ => v
  end.

(** The hourly means the analyzer works with. *)
Definition medias_por_hora (raiz : Q -> Q) (datos : list Tendencias.documento)
    (vals : list Q) : list Q :=
  map Tendencias.mean (Tendencias.stats_por_hora raiz datos vals).

(** The values of each hourly bucket, buckets in chronological order. *)
Definition cubetas (datos : list Tendencias.documento) (vals : list Q) : list (list Q) :=
  map snd (Tendencias.agrupar
             (combine (map (fun d => Tendencias.piso_hora (Tendencias.datetime d)) datos) vals)).

(** Slope, direction and average volatility as the report states them. *)
Definition pendiente_informada (r : Tendencias.resultado) : option Q :=
  match r with
  | Tendencias.Tupla4 _ _ (Tendencias.Informe _ _ _ _ _ _ p _ _ _) _ => Some p
  | _ => None
  end.

Definition direccion_informada (r : Tendencias.resultado) : option Tendencias.direccion :=
  match r with
  | Tendencias.Tupla4 _ _ (Tendencias.Informe _ _ _ _ _ d _ _ _ _) _ => Some d
  | _ => None
  end.

Definition volatilidad_informada (r : Tendencias.resultado) : option flotante :=
  match r with
  | Tendencias.Tupla4 _ _ (Tendencias.Informe _ _ _ _ _ _ _ v _ _) _ => Some v
  | _ => None
  end.

Definition detalles_devueltos (r : Tendencias.resultado) : option Tendencias.detalles :=
  match r with
  | Tendencias.Tupla4 _ _ _ det => Some det
  | Tendencias.Tupla3 _ _ _ => None
  end.

(** Average volatility as the specification words it: the mean of the standard
    deviations of all buckets, a bucket without one (a single sample)
    counting as 0. *)
Definition volatilidad_con_ceros (raiz : Q -> Q) (bs : list (list Q)) : Q :=
  media (map (fun vs => match Tendencias.desviacion raiz vs with
                        | Some s => s
                        | None => 0
                        end) bs).

(** Average volatility over the buckets that have a standard deviation:
    the mean of the standard deviations of the buckets of two samples or more,
    NaN when there is no such bucket. *)
Definition volatilidad_sin_unitarias (raiz : Q -> Q) (bs : list (list Q)) : flotante :=
  match filter (fun vs => (2 <=? length vs)%nat) bs with
  | [] => None
  | b :: r =>
      Some (media (map (fun vs => raiz (Tendencias.varianza_muestral vs)) (b :: r)))
  end.

(** [M] is the largest absolute percentage variation between consecutive
    entries of [medias], and 0 when there is no consecutive pair. *)
Definition es_variacion_maxima (medias : list Q) (M : Q) : Prop :=
  (forall i a b, nth_error medias i = Some a -> nth_error medias (S i) = Some b ->
     Qabs (Tendencias.calcular_variacion_porcentual a b) <= M)
  /\ ((length medias < 2)%nat -> M = 0)
  /\ ((2 <= length medias)%nat ->
      exists i a b, nth_error medias i = Some a /\ nth_error medias (S i) = Some b
                    /\ M = Qabs (Tendencias.calcular_variacion_porcentual a b)).

(** ** Hourly buckets, in the words of the specification *)

(** The instant [t] falls in the clock hour that starts at [h]. *)
Definition en_hora (h t : Z) : bool :=
  ((h mod 3600 =? 0) && (h <=? t) && (t <? h + 3600))%Z.

(** The values of the samples that fall in the hour starting at [h], in
    sample order. *)
Definition valores_en_hora (h : Z) (datos : list Tendencias.documento) (vals : list Q)
    : list Q :=
  map snd (filter (fun p => en_hora h (Tendencias.datetime (fst p))) (combine datos vals)).

(** [medias] are the means of the hourly buckets of the series, in
    chronological order: one bucket for each clock hour in which a sample
    falls, holding the values of the samples of that hour. *)
Definition medias_de_cubetas_horarias (datos : list Tendencias.documento) (vals : list Q)
    (medias : list Q) : Prop :=
  exists horas,
    StronglySorted Z.lt horas
    /\ (forall h, In h horas <->
                  exists d, In d datos /\ en_hora h (Tendencias.datetime d) = true)
    /\ medias = map (fun h => media (valores_en_hora h datos vals)) horas.

(** A square root to run the examples with: the root rounded down to six
    decimals.  The theorems hold for any [raiz]. *)
Definition raiz_6_decimales (q : Q) : Q :=
  Z.sqrt (Qfloor (q * inject_Z (10 ^ 12))) # (10 ^ 6).

(** ** Example inputs *)

Definition un_documento : Tendencias.documento :=
  {| Tendencias.datetime := 0; Tendencias.valores := [("bol2usdt"%string, 100)] |}.


(** One sample in each of three consecutive hours, with [bol2usdt] equal
    to 100, 100 and 103. *)
Definition muestra_bol2usdt (t : Z) (v : Q) : Tendencias.documento :=
  {| Tendencias.datetime := t; Tendencias.valores := [("bol2usdt"%string, v)] |}.

Definition ejemplo_100_100_103 : list Tendencias.documento :=
  [muestra_bol2usdt 1714557720 100; muestra_bol2usdt 1714561500 100;
   muestra_bol2usdt 1714564859 103].

(** Three samples within one hour (100, 102, 104) and one in the next
    (105). *)
Definition ejemplo_tres_y_una : list Tendencias.documento :=
  [muestra_bol2usdt 1714557720 100; muestra_bol2usdt 1714558800 102;
   muestra_bol2usdt 1714560000 104; muestra_bol2usdt 1714561500 105].

(** Two samples in each of three consecutive hours.  The series ends 1%
    above its start and no two consecutive samples differ by 2%, while the
    hourly means (1009.5, 1038, 1015) rise by more than 2.8% and fall by more
    than 2.2%. *)
Definition ejemplo_repunte : list Tendencias.documento :=
  [muestra_bol2usdt 1714557720 1000; muestra_bol2usdt 1714559400 1019;
   muestra_bol2usdt 1714561500 1038; muestra_bol2usdt 1714563000 1038;
   muestra_bol2usdt 1714564859 1020; muestra_bol2usdt 1714566600 1010].

(** ** Least squares *)

(** Numerator of the least-squares slope: [n * S(xy) - S(x) * S(y)]. *)
Definition numerador (x y : list Q) : Q :=
  de_nat (length x) * suma (Tendencias.productos x y) - suma x * suma y.

(** [S((x_i - x0) * (y_i - y0))] *)
Definition cruce (x0 y0 : Q) (x y : list Q) : Q :=
  suma (map (fun p => (fst p - x0) * (snd p - y0)) (combine x y)).

(** One sample in each hour, in chronological order. *)
Definition una_muestra_por_hora (datos : list Tendencias.documento) : Prop :=
  StronglySorted Z.lt
    (map (fun d => Tendencias.piso_hora (Tendencias.datetime d)) datos).

Definition serie_por_hora (v0 v1 v2 v3 : Q) : list Tendencias.documento :=
  [muestra_bol2usdt 1714557720 v0; muestra_bol2usdt 1714561500 v1;
   muestra_bol2usdt 1714564859 v2; muestra_bol2usdt 1714568400 v3].

(** A strictly increasing series, one sample per hour. *)
Definition ejemplo_creciente : list Tendencias.documento := serie_por_hora 100 101 103 104.

(** A series that ends where it started, and one that ends above its start
    after an early peak. *)
Definition ejemplo_vuelve : list Tendencias.documento := serie_por_hora 100 98 101 100.
Definition ejemplo_pico : list Tendencias.documento := serie_por_hora 100 103 99 101.

(** ** Reading a fetch *)

(** The [k]-th request ever made to the API is answered by an attempt that
    fails, or by one that succeeds with [par]. *)
Definition resultado_intento (fuente : BinanceP2P.api) (sol : BinanceP2P.solicitud)
    (k : nat) : option (list BinanceP2P.oferta * list BinanceP2P.oferta) :=
  BinanceP2P.intento (BinanceP2P.trade_type sol) (fuente k sol).

(** An answer on which an attempt fails: a transport error, a status other
    than 200, or a 200 answer whose body cannot be read or holds no offer. *)
Inductive respuesta_fallida : BinanceP2P.respuesta -> Prop :=
| falla_transporte : respuesta_fallida BinanceP2P.ErrorTransporte
| falla_estado (status_code : Z) (cuerpo : option (list BinanceP2P.oferta)) :
    status_code <> 200%Z -> respuesta_fallida (BinanceP2P.Http status_code cuerpo)
| falla_cuerpo : respuesta_fallida (BinanceP2P.Http 200 None)
| falla_sin_ofertas : respuesta_fallida (BinanceP2P.Http 200 (Some [])).

(** An answer on which an attempt succeeds with the offers [ofertas]. *)
Definition respuesta_exitosa (r : BinanceP2P.respuesta) (ofertas : list BinanceP2P.oferta)
    : Prop :=
  r = BinanceP2P.Http 200 (Some ofertas) /\ ofertas <> [].

(** What a successful attempt returns for the offers [ofertas]: the offers
    sorted by price (ascending for BUY, descending otherwise) and the raw
    data. *)
Definition par_devuelto (sol : BinanceP2P.solicitud) (ofertas : list BinanceP2P.oferta)
    : list BinanceP2P.oferta * list BinanceP2P.oferta :=
  (BinanceP2P.sort_values (String.eqb (BinanceP2P.trade_type sol) "BUY") ofertas, ofertas).

Definition oferta_de_precio (p : Q) : BinanceP2P.oferta :=
  {| BinanceP2P.precio := p; BinanceP2P.cantidad_disponible := 1000;
     BinanceP2P.limite_min := 10; BinanceP2P.limite_max := 500;
     BinanceP2P.metodos_pago := ["BancoUnion"%string]; BinanceP2P.comerciante := "m";
     BinanceP2P.completadas := 120; BinanceP2P.tasa_completadas := 99 # 100;
     BinanceP2P.verificado := true |}.

(** An API that fails twice (a transport error, then status 500 with a
    body that holds an offer) and answers from the third request on. *)
Definition api_falla_dos_veces : BinanceP2P.api :=
  fun k _ =>
    match k with
    | O => BinanceP2P.ErrorTransporte
    | S O => BinanceP2P.Http 500 (Some [oferta_de_precio 30])
    | _ => BinanceP2P.Http 200 (Some [oferta_de_precio 20; oferta_de_precio 10])
    end.

(** An API whose first two answers have status 200 and no usable offer (a
    body that cannot be read, then an empty list) and that answers from the
    third request on. *)
Definition api_vacia_dos_veces : BinanceP2P.api :=
  fun k _ =>
    match k with
    | O => BinanceP2P.Http 200 None
    | S O => BinanceP2P.Http 200 (Some [])
    | _ => BinanceP2P.Http 200 (Some [oferta_de_precio 20; oferta_de_precio 10])
    end.

(** An API that never answers. *)
Definition api_caida : BinanceP2P.api := fun _ _ => BinanceP2P.ErrorTransporte.

(** An API that answers the purchase side only. *)
Definition api_solo_compra : BinanceP2P.api :=
  fun _ sol =>
    if String.eqb (BinanceP2P.trade_type sol) "BUY"
    then BinanceP2P.Http 200 (Some [oferta_de_precio 20; oferta_de_precio 10])
    else BinanceP2P.Http 503 None.

(** An API that always answers with two offers. *)
Definition api_sana : BinanceP2P.api :=
  fun _ _ => BinanceP2P.Http 200 (Some [oferta_de_precio 20; oferta_de_precio 10]).

(** Equality of floats that may be NaN, numbers compared by value. *)
Definition igual_flotante (a b : flotante) : Prop :=
  match a, b with
  | Some x, Some y => x == y
  | None, None => True
  | _, _ => False
  end.

(** ** Reading the groups *)

(** The values filed under key [k] in a grouping. *)
Definition valores_de (k : Z) (grupos : list (Z * list Q)) : list Q :=
  match find (fun g => (fst g =? k)%Z) grupos with
  | Some g => snd g
  | None => []
  end.

(** The values of the rows whose key is [k], in row order. *)
Definition filas_de (k : Z) (filas : list (Z * Q)) : list Q :=
  map snd (filter (fun f => (fst f =? k)%Z) filas).

(** Sum of squared residuals of the line [a * x + b] on the points
    [(x_i, y_i)]. *)
Definition error_cuadratico (a b : Q) (x y : list Q) : Q :=
  suma (map (fun p => (snd p - (a * fst p + b)) * (snd p - (a * fst p + b)))
          (combine x y)).

(** ** More readings of the report *)

(** Number of hours and largest variation between consecutive hours as the
    report states them. *)
Definition horas_informadas (r : Tendencias.resultado) : option nat :=
  match r with
  | Tendencias.Tupla4 _ _ (Tendencias.Informe _ n _ _ _ _ _ _ _ _) _ => Some n
  | _ => None
  end.

Definition variacion_maxima_informada (r : Tendencias.resultado) : option Q :=
  match r with
  | Tendencias.Tupla4 _ _ (Tendencias.Informe _ _ _ _ _ _ _ _ m _) _ => Some m
  | _ => None
  end.

(** Four samples within one hour. *)
Definition ejemplo_una_hora : list Tendencias.documento :=
  [muestra_bol2usdt 1714557720 100; muestra_bol2usdt 1714558800 102;
   muestra_bol2usdt 1714560000 104; muestra_bol2usdt 1714560600 101].

(** A stored document with the three analysed rates. *)
Definition muestra_tasas (t : Z) (compra venta btc : Q) : Tendencias.documento :=
  {| Tendencias.datetime := t;
     Tendencias.valores := [("btc2usd"%string, btc); ("bol2usdt"%string, compra);
                            ("usdt2bol"%string, venta)] |}.

(** Three samples in two hours: the purchase rate rises by 3%, the sale rate
    and the bitcoin price barely move. *)
Definition ejemplo_tasas : list Tendencias.documento :=
  [muestra_tasas 1714557720 100 99 64000; muestra_tasas 1714559400 101 99 64100;
   muestra_tasas 1714561500 103 100 64200].

(** The result of [analizar_tendencias] before any rate is analysed. *)
Definition resultados_iniciales : Tendencias.resultados :=
  {| Tendencias.res_bol2usdt := Tendencias.sin_tendencia;
     Tendencias.res_usdt2bol := Tendencias.sin_tendencia;
     Tendencias.res_btc2usd := Tendencias.sin_tendencia |}.

(** The entry that [analizar_tendencias] files for a rate whose analysis
    returned [r]. *)
Definition entrada_de (r : Tendencias.resultado) : Tendencias.entrada :=
  {| Tendencias.entrada_hay_tendencia := significativa r;
     Tendencias.entrada_detalles := detalles_devueltos r |}.
(** ** Theorems: percentage variation *)

Lemma Qeq_bool_false_neq (x y : Q) : Qeq_bool x y = false -> ~ x == y.
Proof.
  intros H E. apply Qeq_bool_iff in E. congruence.
Qed.

(** C4. [calcular_variacion_porcentual(initial, final)] is
    [(final - initial) / initial * 100] whenever [initial] is nonzero, and
    [0] whenever [initial] is zero. *)
Theorem calcular_variacion_porcentual_casos (valor_inicial valor_final : Q) :
  (~ valor_inicial == 0 ->
   Tendencias.calcular_variacion_porcentual valor_inicial valor_final
   = (valor_final - valor_inicial) / valor_inicial * 100)
  /\ (valor_inicial == 0 ->
      Tendencias.calcular_variacion_porcentual valor_inicial valor_final = 0).
Proof.
  unfold Tendencias.calcular_variacion_porcentual.
  destruct (Qeq_bool valor_inicial 0) eqn:E; split; intros H; try reflexivity.
  - apply Qeq_bool_iff in E. contradiction.
  - apply Qeq_bool_false_neq in E. contradiction.
Qed.

Lemma calcular_variacion_porcentual_casos_witness :
  Tendencias.calcular_variacion_porcentual 100 103 = (103 - 100) / 100 * 100
  /\ Tendencias.calcular_variacion_porcentual 0 7 = 0.
Proof.
  split.
  - apply (proj1 (calcular_variacion_porcentual_casos 100 103)). discriminate.
  - apply (proj2 (calcular_variacion_porcentual_casos 0 7)). reflexivity.
Defined.

(** ** Theorems: the early exits of the analyzer *)

Section SalidasAnticipadas.

Variable raiz : Q -> Q.
Variable campo : string.
Variable umbral_variacion : Q.


Lemma en_columnas_false (l : list Tendencias.documento) :
  (forall d, In d l -> Tendencias.obtener campo d = None) ->
  Tendencias.en_columnas campo l = false.
Proof.
  intros H. unfold Tendencias.en_columnas.
  induction l as [|d l IH]; simpl; [reflexivity|].
  rewrite (H d (or_introl eq_refl)). simpl.
  apply IH. intros d' Hd'. apply H. right. exact Hd'.
Qed.

Lemma columna_en_columnas (l : list Tendencias.documento) (vals : list Q) :
  l <> [] -> Tendencias.columna campo l = Some vals ->
  Tendencias.en_columnas campo l = true.
Proof.
  destruct l as [|d l]; [congruence|]. intros _. simpl.
  destruct (Tendencias.obtener campo d); [reflexivity | discriminate].
Qed.

Lemma detectar_pocos_datos (datos : option (list Tendencias.documento)) :
  (numero_muestras datos < 2)%nat ->
  Tendencias.detectar_tendencia_significativa raiz datos campo umbral_variacion
  = Retorna (Tendencias.Tupla3 false 0 (Tendencias.Texto "Datos insuficientes para análisis")).
Proof.
  unfold Tendencias.detectar_tendencia_significativa.
  destruct datos as [l|]; simpl; [|reflexivity].
  intros H. apply Nat.ltb_lt in H. rewrite H. reflexivity.
Qed.

Lemma detectar_campo_ausente (datos : option (list Tendencias.documento)) :
  (2 <= numero_muestras datos)%nat -> campo_ausente campo datos ->
  Tendencias.detectar_tendencia_significativa raiz datos campo umbral_variacion
  = Retorna (Tendencias.Tupla3 false 0
               (Tendencias.Texto ("El campo " ++ campo ++ " no existe en los datos"))).
Proof.
  unfold Tendencias.detectar_tendencia_significativa.
  destruct datos as [l|]; simpl; [|lia].
  intros Hn [Hdt Hnone].
  destruct (length l <? 2)%nat eqn:E; [apply Nat.ltb_lt in E; lia|].
  destruct (String.eqb campo "datetime") eqn:Ed; [apply String.eqb_eq in Ed; contradiction|].
  rewrite en_columnas_false; [reflexivity|].
  intros d Hd. apply (Hnone l d eq_refl Hd).
Qed.

Lemma detectar_salida_anticipada (datos : option (list Tendencias.documento)) :
  (numero_muestras datos < 2)%nat \/ campo_ausente campo datos ->
  exists msg, Tendencias.detectar_tendencia_significativa raiz datos campo umbral_variacion = Retorna (Tendencias.Tupla3 false 0 msg).
Proof.
  intros [H|H].
  - eexists. apply detectar_pocos_datos. exact H.
  - destruct (Nat.lt_ge_cases (numero_muestras datos) 2) as [Hlt|Hge].
    + eexists. apply detectar_pocos_datos. exact Hlt.
    + eexists. apply detectar_campo_ausente; assumption.
Qed.

Lemma detectar_analiza (l : list Tendencias.documento) (vals : list Q) :
  (2 <= length l)%nat -> campo_presente campo l vals ->
  Tendencias.detectar_tendencia_significativa raiz (Some l) campo umbral_variacion
  = Retorna (Tendencias.analizar_columna raiz l campo vals umbral_variacion).
Proof.
  unfold Tendencias.detectar_tendencia_significativa.
  intros Hn [Hdt Hcol].
  destruct (length l <? 2)%nat eqn:E; [apply Nat.ltb_lt in E; lia|].
  destruct (String.eqb campo "datetime") eqn:Ed; [apply String.eqb_eq in Ed; contradiction|].
  rewrite (columna_en_columnas l vals); [|destruct l; simpl in *; [lia|congruence]|exact Hcol].
  simpl. rewrite Hcol. reflexivity.
Qed.

End SalidasAnticipadas.

(** C3. With fewer than two samples, or with the requested field absent
    from the data, the analyzer returns (it does not raise) a verdict whose
    flag is false and whose variation is 0. *)
Theorem datos_insuficientes_sin_tendencia (raiz : Q -> Q)
    (datos : option (list Tendencias.documento)) (campo : string) (umbral_variacion : Q) :
  (numero_muestras datos < 2)%nat \/ campo_ausente campo datos ->
  exists r,
    Tendencias.detectar_tendencia_significativa raiz datos campo umbral_variacion = Retorna r
    /\ significativa r = false /\ variacion_devuelta r = 0.
Proof.
  intros H.
  destruct (detectar_salida_anticipada raiz campo umbral_variacion datos H) as [msg E].
  exists (Tendencias.Tupla3 false 0 msg). rewrite E. repeat split.
Qed.

Lemma datos_insuficientes_sin_tendencia_witness :
  exists r,
    Tendencias.detectar_tendencia_significativa raiz_6_decimales (Some [un_documento])
      "bol2usdt" 2 = Retorna r
    /\ significativa r = false /\ variacion_devuelta r = 0.
Proof.
  apply (datos_insuficientes_sin_tendencia raiz_6_decimales (Some [un_documento]) "bol2usdt" 2).
  left. simpl. lia.
Defined.

(** C9. On the two early exits (fewer than two samples, or field absent)
    the analyzer returns three components (flag, variation, message); on every
    other input, that is two samples or more that all carry the field, it
    returns four (flag, variation, message, details).  A caller that unpacks
    four components fails on the early-exit result; [analizar_tendencias] is
    such a caller and raises [ValueError] when storage holds one sample. *)
Theorem componentes_del_resultado (raiz : Q -> Q)
    (datos : option (list Tendencias.documento)) (campo : string) (umbral_variacion : Q) :
  let salida_analisis :=
    Tendencias.detectar_tendencia_significativa raiz datos campo umbral_variacion in
  ((numero_muestras datos < 2)%nat \/ campo_ausente campo datos ->
   (exists r, salida_analisis = Retorna r /\ componentes r = 3%nat)
   /\ Tendencias.desempaquetar4 salida_analisis = Lanza "ValueError")
  /\ (forall l vals, datos = Some l -> (2 <= length l)%nat -> campo_presente campo l vals ->
      (exists r, salida_analisis = Retorna r /\ componentes r = 4%nat)
      /\ exists t, Tendencias.desempaquetar4 salida_analisis = Retorna t)
  /\ (forall d, Tendencias.analizar_tendencias raiz (Some [d]) = Lanza "ValueError").
Proof.
  cbv zeta. split; [|split].
  - intros H.
    destruct (detectar_salida_anticipada raiz campo umbral_variacion datos H) as [msg E].
    rewrite E. split; [eexists; split; reflexivity | reflexivity].
  - intros l vals -> Hn Hp.
    rewrite (detectar_analiza raiz campo umbral_variacion l vals Hn Hp).
    unfold Tendencias.analizar_columna.
    destruct (Tendencias.tendencia_lineal _) as [p dir].
    split; [eexists; split; reflexivity | eexists; reflexivity].
  - intros d. reflexivity.
Qed.

Lemma componentes_del_resultado_witness :
  ((exists r,
      Tendencias.detectar_tendencia_significativa raiz_6_decimales (Some [un_documento])
        "bol2usdt" 2 = Retorna r
      /\ componentes r = 3%nat)
   /\ Tendencias.desempaquetar4
        (Tendencias.detectar_tendencia_significativa raiz_6_decimales (Some [un_documento])
           "bol2usdt" 2)
      = Lanza "ValueError")
  /\ ((exists r,
       Tendencias.detectar_tendencia_significativa raiz_6_decimales
         (Some ejemplo_100_100_103) "bol2usdt" 2 = Retorna r
       /\ componentes r = 4%nat)
      /\ exists t,
          Tendencias.desempaquetar4
            (Tendencias.detectar_tendencia_significativa raiz_6_decimales
               (Some ejemplo_100_100_103) "bol2usdt" 2)
          = Retorna t).
Proof.
  split.
  - apply (proj1 (componentes_del_resultado raiz_6_decimales (Some [un_documento])
                    "bol2usdt" 2)).
    left. simpl. lia.
  - apply (proj1 (proj2 (componentes_del_resultado raiz_6_decimales
                           (Some ejemplo_100_100_103) "bol2usdt" 2))
             ejemplo_100_100_103 [100; 100; 103]).
    + reflexivity.
    + simpl. lia.
    + split; [discriminate | reflexivity].
Defined.

(** ** Theorems: grouping by hour *)

Lemma valores_de_menor (k : Z) (grupos : list (Z * list Q)) :
  Forall (Z.lt k) (map fst grupos) -> valores_de k grupos = [].
Proof.
  unfold valores_de. induction grupos as [|[k' vs] grupos IH]; intros H; [reflexivity|].
  inversion H as [|? ? Hk Hr]; subst. cbn [find fst].
  destruct (Z.eqb_spec k' k) as [E|_]; [simpl in Hk; lia|]. apply IH. exact Hr.
Qed.

Lemma insertar_cota (a k : Z) (v : Q) (grupos : list (Z * list Q)) :
  (a < k)%Z -> Forall (Z.lt a) (map fst grupos) ->
  Forall (Z.lt a) (map fst (Tendencias.insertar k v grupos)).
Proof.
  intros Ha. induction grupos as [|[k' vs] grupos IH]; intros H.
  - simpl. constructor; [exact Ha | constructor].
  - inversion H as [|? ? Hk Hr]; subst. cbn [Tendencias.insertar].
    destruct (k <? k')%Z; [constructor; [exact Ha | exact H]|].
    destruct (k =? k')%Z; constructor; try exact Hk; try exact Hr.
    apply IH. exact Hr.
Qed.

Lemma insertar_sorted (k : Z) (v : Q) (grupos : list (Z * list Q)) :
  StronglySorted Z.lt (map fst grupos) ->
  StronglySorted Z.lt (map fst (Tendencias.insertar k v grupos)).
Proof.
  induction grupos as [|[k' vs] grupos IH]; intros H.
  - simpl. repeat constructor.
  - inversion H as [|? ? Hs Hf]; subst. cbn [Tendencias.insertar].
    destruct (Z.ltb_spec k k') as [Hlt|Hge].
    + constructor; [exact H|]. constructor; [exact Hlt|].
      simpl in Hf. apply Forall_forall. intros x Hx.
      rewrite Forall_forall in Hf. specialize (Hf x Hx). cbn [fst] in *. lia.
    + destruct (Z.eqb_spec k k') as [E|Hne].
      * constructor; assumption.
      * cbn [map fst]. constructor; [apply IH; exact Hs|].
        apply insertar_cota; [simpl; lia | exact Hf].
Qed.

Lemma insertar_valores (k k0 : Z) (v : Q) (grupos : list (Z * list Q)) :
  StronglySorted Z.lt (map fst grupos) ->
  valores_de k0 (Tendencias.insertar k v grupos)
  = if (k =? k0)%Z then v :: valores_de k0 grupos else valores_de k0 grupos.
Proof.
  induction grupos as [|[k' vs] grupos IH]; intros H.
  - unfold valores_de. cbn [Tendencias.insertar find fst snd].
    destruct (k =? k0)%Z; reflexivity.
  - inversion H as [|? ? Hs Hf]; subst. cbn [Tendencias.insertar].
    destruct (Z.ltb_spec k k') as [Hlt|Hge].
    + unfold valores_de at 1. cbn [find fst snd].
      destruct (Z.eqb_spec k k0) as [<-|Hne]; [|reflexivity].
      rewrite valores_de_menor; [reflexivity|].
      constructor; [exact Hlt|]. simpl in Hf.
      apply Forall_forall. intros x Hx.
      rewrite Forall_forall in Hf. specialize (Hf x Hx). cbn [fst] in *. lia.
    + destruct (Z.eqb_spec k k') as [->|Hne].
      * unfold valores_de. cbn [find fst snd].
        destruct (Z.eqb_spec k' k0) as [_|_]; reflexivity.
      * unfold valores_de. cbn [find fst snd]. fold (valores_de k0 grupos).
        fold (valores_de k0 (Tendencias.insertar k v grupos)).
        destruct (Z.eqb_spec k' k0) as [<-|Hne'].
        -- destruct (Z.eqb_spec k k') as [E|_]; [contradiction | reflexivity].
        -- apply IH. exact Hs.
Qed.

(** [agrupar] is a grouping by key: its keys are in strictly ascending
    order, and the values filed under a key are those of the rows with that
    key, in row order. *)
Lemma agrupar_por_clave (filas : list (Z * Q)) :
  StronglySorted Z.lt (map fst (Tendencias.agrupar filas))
  /\ forall k, valores_de k (Tendencias.agrupar filas) = filas_de k filas.
Proof.
  induction filas as [|[k v] filas [IHs IHv]].
  - split; [constructor | reflexivity].
  - change (Tendencias.agrupar ((k, v) :: filas))
      with (Tendencias.insertar k v (Tendencias.agrupar filas)).
    split; [apply insertar_sorted; exact IHs|].
    intros k0. rewrite insertar_valores by exact IHs. rewrite IHv.
    unfold filas_de. cbn [filter fst].
    destruct (k =? k0)%Z; reflexivity.
Qed.

Lemma insertar_no_vacios (k : Z) (v : Q) (grupos : list (Z * list Q)) :
  Forall (fun g => snd g <> []) grupos ->
  Forall (fun g => snd g <> []) (Tendencias.insertar k v grupos).
Proof.
  induction grupos as [|[k' vs] grupos IH]; intros H.
  - simpl. constructor; [discriminate | constructor].
  - inversion H as [|? ? Hg Hr]; subst. cbn [Tendencias.insertar].
    destruct (k <? k')%Z; [constructor; [discriminate | exact H]|].
    destruct (k =? k')%Z; constructor; try exact Hr; try exact Hg; try discriminate.
    apply IH. exact Hr.
Qed.

(** Every group holds a row or more. *)
Lemma agrupar_no_vacios (filas : list (Z * Q)) :
  Forall (fun g => snd g <> []) (Tendencias.agrupar filas).
Proof.
  induction filas as [|[k v] filas IH]; [constructor|].
  apply insertar_no_vacios. exact IH.
Qed.

Lemma insertar_claves (k k0 : Z) (v : Q) (grupos : list (Z * list Q)) :
  In k0 (map fst (Tendencias.insertar k v grupos)) <-> k0 = k \/ In k0 (map fst grupos).
Proof.
  induction grupos as [|[k' vs] grupos IH]; cbn [Tendencias.insertar].
  - simpl. intuition.
  - destruct (Z.ltb_spec k k'); [simpl; intuition|].
    destruct (Z.eqb_spec k k') as [->|Hne]; [simpl; intuition|].
    cbn [map fst In]. rewrite IH. intuition.
Qed.

Lemma agrupar_claves (filas : list (Z * Q)) (k : Z) :
  In k (map fst (Tendencias.agrupar filas)) <-> In k (map fst filas).
Proof.
  induction filas as [|[k' v] filas IH]; [reflexivity|].
  change (Tendencias.agrupar ((k', v) :: filas))
    with (Tendencias.insertar k' v (Tendencias.agrupar filas)).
  rewrite insertar_claves, IH. simpl. intuition.
Qed.

Lemma valores_de_In (k : Z) (vs : list Q) (grupos : list (Z * list Q)) :
  StronglySorted Z.lt (map fst grupos) -> In (k, vs) grupos -> valores_de k grupos = vs.
Proof.
  unfold valores_de.
  induction grupos as [|[k' vs'] grupos IH]; intros Hs Hin; [destruct Hin|].
  inversion Hs as [|? ? Hs' Hf]; subst. cbn [find fst].
  destruct Hin as [E|Hin].
  - injection E as -> ->. rewrite Z.eqb_refl. reflexivity.
  - destruct (Z.eqb_spec k' k) as [->|Hne]; [|apply IH; assumption].
    exfalso. rewrite Forall_forall in Hf.
    specialize (Hf k (in_map fst _ _ Hin)). cbn [fst] in Hf. lia.
Qed.

Lemma columna_length (campo : string) (datos : list Tendencias.documento) (vals : list Q) :
  Tendencias.columna campo datos = Some vals -> length vals = length datos.
Proof.
  revert vals. induction datos as [|d datos IH]; intros vals H; simpl in H.
  - injection H as <-. reflexivity.
  - destruct (Tendencias.obtener campo d); [|discriminate].
    destruct (Tendencias.columna campo datos) as [vs|]; [|discriminate].
    injection H as <-. simpl. rewrite (IH vs eq_refl). reflexivity.
Qed.

Lemma combine_fst (hs : list Z) (vals : list Q) :
  length vals = length hs -> map fst (combine hs vals) = hs.
Proof.
  revert vals. induction hs as [|h hs IH]; intros [|v vals] Hlen; try discriminate;
    [reflexivity|].
  simpl. f_equal. apply IH. simpl in Hlen. congruence.
Qed.

(** The hour floor of the code files [t] under the start of its clock hour. *)
Lemma piso_hora_en_hora (h t : Z) :
  en_hora h t = (Tendencias.piso_hora t =? h)%Z.
Proof.
  unfold en_hora, Tendencias.piso_hora.
  destruct (Z.eqb_spec (t / 3600 * 3600) h) as [<-|Hne].
  - rewrite Z.mod_mul by lia. rewrite !andb_true_iff.
    split; [split; [reflexivity | apply Z.leb_le] | apply Z.ltb_lt];
      Z.div_mod_to_equations; lia.
  - apply not_true_iff_false. intros H. apply Hne.
    rewrite !andb_true_iff in H. destruct H as [[H1 H2] H3].
    apply Z.eqb_eq in H1. apply Z.leb_le in H2. apply Z.ltb_lt in H3.
    Z.div_mod_to_equations. lia.
Qed.

Lemma filas_de_en_hora (datos : list Tendencias.documento) (vals : list Q) (h : Z) :
  filas_de h (combine (map (fun d => Tendencias.piso_hora (Tendencias.datetime d)) datos) vals)
  = valores_en_hora h datos vals.
Proof.
  unfold filas_de, valores_en_hora. revert vals.
  induction datos as [|d datos IH]; intros [|v vals]; try reflexivity.
  cbn [map combine filter fst]. rewrite piso_hora_en_hora.
  destruct (Tendencias.piso_hora (Tendencias.datetime d) =? h)%Z;
    cbn [map snd]; rewrite IH; reflexivity.
Qed.

(** ** Theorems: the significance criterion *)

Lemma Qlt_bool_iff (x y : Q) : Qlt_bool x y = true <-> x < y.
Proof.
  unfold Qlt_bool. rewrite negb_true_iff. split.
  - intros H. apply Qnot_le_lt. intros L. apply Qle_bool_iff in L. congruence.
  - intros H. destruct (Qle_bool y x) eqn:E; [|reflexivity].
    apply Qle_bool_iff in E. exfalso. apply (Qlt_not_le _ _ H E).
Qed.

Lemma Qlt_bool_false_iff (x y : Q) : Qlt_bool x y = false <-> y <= x.
Proof.
  unfold Qlt_bool. rewrite negb_false_iff. apply Qle_bool_iff.
Qed.

Lemma maximo_lista_cota (l : list Q) (x : Q) :
  x <= Tendencias.maximo_lista x l
  /\ forall v, In v l -> v <= Tendencias.maximo_lista x l.
Proof.
  unfold Tendencias.maximo_lista.
  revert x. induction l as [|a l IH]; intros x; simpl.
  - split; [apply Qle_refl | intros v []].
  - destruct (Qlt_bool x a) eqn:E.
    + apply Qlt_bool_iff in E. destruct (IH a) as [Ha Hl]. split.
      * apply Qle_trans with a; [apply Qlt_le_weak; exact E | exact Ha].
      * intros v [<-|Hv]; [exact Ha | apply Hl; exact Hv].
    + apply Qlt_bool_false_iff in E. destruct (IH x) as [Hx Hl]. split.
      * exact Hx.
      * intros v [<-|Hv]; [apply Qle_trans with x; assumption | apply Hl; exact Hv].
Qed.

Lemma maximo_lista_In (l : list Q) (x : Q) :
  In (Tendencias.maximo_lista x l) (x :: l).
Proof.
  unfold Tendencias.maximo_lista.
  revert x. induction l as [|a l IH]; intros x; simpl.
  - left. reflexivity.
  - destruct (Qlt_bool x a).
    + right. apply (IH a).
    + destruct (IH x) as [H|H]; [left; exact H | right; right; exact H].
Qed.

Lemma variaciones_entre_horas_nth (medias : list Q) (i : nat) (a b : Q) :
  nth_error medias i = Some a -> nth_error medias (S i) = Some b ->
  In (Qabs (Tendencias.calcular_variacion_porcentual a b))
     (Tendencias.variaciones_entre_horas medias).
Proof.
  revert i. induction medias as [|x l IH]; intros i Ha Hb.
  - destruct i; discriminate.
  - destruct l as [|y l'].
    + destruct i; simpl in Hb; [discriminate | destruct i; discriminate].
    + destruct i as [|i].
      * simpl in Ha, Hb. injection Ha as <-. injection Hb as <-. left. reflexivity.
      * right. apply (IH i); assumption.
Qed.

Lemma variaciones_entre_horas_In (medias : list Q) (v : Q) :
  In v (Tendencias.variaciones_entre_horas medias) ->
  exists i a b, nth_error medias i = Some a /\ nth_error medias (S i) = Some b
                /\ v = Qabs (Tendencias.calcular_variacion_porcentual a b).
Proof.
  induction medias as [|x l IH]; [intros []|].
  destruct l as [|y l']; [intros []|].
  intros [<-|H].
  - exists 0%nat, x, y. repeat split.
  - destruct (IH H) as (i & a & b & Ha & Hb & E).
    exists (S i), a, b. repeat split; assumption.
Qed.

Lemma variacion_maxima_es_maxima (medias : list Q) :
  es_variacion_maxima medias (Tendencias.variacion_maxima_entre_horas medias).
Proof.
  unfold es_variacion_maxima, Tendencias.variacion_maxima_entre_horas.
  split; [|split].
  - intros i a b Ha Hb.
    pose proof (variaciones_entre_horas_nth medias i a b Ha Hb) as Hin.
    destruct (Tendencias.variaciones_entre_horas medias) as [|v vs]; [destruct Hin|].
    destruct (maximo_lista_cota vs v) as [Hv Hvs].
    destruct Hin as [<-|Hin]; [exact Hv | apply Hvs; exact Hin].
  - intros Hlen. destruct medias as [|x [|y l]]; simpl in *; try reflexivity; lia.
  - intros Hlen.
    destruct (Tendencias.variaciones_entre_horas medias) as [|v vs] eqn:E.
    + destruct medias as [|x [|y l]]; simpl in *; try lia; discriminate.
    + apply variaciones_entre_horas_In. rewrite E. apply maximo_lista_In.
Qed.

Lemma analizar_columna_veredicto (raiz : Q -> Q) (datos : list Tendencias.documento)
    (campo : string) (vals : list Q) (umbral_variacion : Q) :
  let r := Tendencias.analizar_columna raiz datos campo vals umbral_variacion in
  let variacion_total :=
    Tendencias.calcular_variacion_porcentual (hd 0 vals) (last vals 0) in
  variacion_devuelta r = variacion_total
  /\ significativa r
     = Qle_bool umbral_variacion (Qabs variacion_total)
       || Qle_bool umbral_variacion
            (Tendencias.variacion_maxima_entre_horas (medias_por_hora raiz datos vals)).
Proof.
  cbv zeta. unfold Tendencias.analizar_columna, medias_por_hora.
  destruct (Tendencias.tendencia_lineal _) as [p dir]. split; reflexivity.
Qed.

(** The hourly means are the means of the hourly buckets. *)
Lemma medias_por_hora_cubetas (raiz : Q -> Q) (datos : list Tendencias.documento)
    (vals : list Q) :
  medias_por_hora raiz datos vals = map media (cubetas datos vals).
Proof.
  unfold medias_por_hora, cubetas, Tendencias.stats_por_hora.
  rewrite !map_map. reflexivity.
Qed.

(** The hourly means the analyzer computes are the means of the values that
    fall in each clock hour holding a sample, hours in chronological order. *)
Lemma medias_por_hora_horarias (raiz : Q -> Q) (datos : list Tendencias.documento)
    (vals : list Q) :
  length vals = length datos ->
  medias_de_cubetas_horarias datos vals (medias_por_hora raiz datos vals).
Proof.
  intros Hlen. unfold medias_de_cubetas_horarias.
  destruct (agrupar_por_clave
              (combine (map (fun d => Tendencias.piso_hora (Tendencias.datetime d)) datos) vals))
    as [Hs Hv].
  exists (map fst
            (Tendencias.agrupar
               (combine (map (fun d => Tendencias.piso_hora (Tendencias.datetime d)) datos)
                  vals))).
  split; [exact Hs|]. split.
  - intros h. rewrite agrupar_claves.
    rewrite combine_fst by (rewrite length_map; exact Hlen).
    rewrite in_map_iff. split.
    + intros (d & E & Hd). exists d. split; [exact Hd|].
      rewrite piso_hora_en_hora. apply Z.eqb_eq. exact E.
    + intros (d & Hd & E). exists d.
      rewrite piso_hora_en_hora in E. apply Z.eqb_eq in E. split; assumption.
  - unfold medias_por_hora, Tendencias.stats_por_hora. rewrite !map_map.
    apply map_ext_in. intros [k vs] Hin.
    change (Tendencias.mean (Tendencias.agregar raiz (k, vs))) with (media vs).
    cbn [fst]. f_equal.
    rewrite <- filas_de_en_hora, <- Hv. symmetry.
    apply valores_de_In; assumption.
Qed.



(** ** Theorems: average volatility *)

Lemma analizar_columna_volatilidad (raiz : Q -> Q) (datos : list Tendencias.documento)
    (campo : string) (vals : list Q) (umbral_variacion : Q) :
  volatilidad_informada (Tendencias.analizar_columna raiz datos campo vals umbral_variacion)
  = Some (Tendencias.volatilidad_promedio (Tendencias.stats_por_hora raiz datos vals)).
Proof.
  unfold Tendencias.analizar_columna.
  destruct (Tendencias.tendencia_lineal _) as [p dir]. reflexivity.
Qed.

Lemma desviaciones_definidas (raiz : Q -> Q) (grupos : list (Z * list Q)) :
  flat_map (fun v : flotante => match v with Some q => [q] | None => [] end)
    (map Tendencias.std (map (Tendencias.agregar raiz) grupos))
  = map (fun vs => raiz (Tendencias.varianza_muestral vs))
      (filter (fun vs => (2 <=? length vs)%nat) (map snd grupos)).
Proof.
  induction grupos as [|[k vs] grupos IH]; [reflexivity|].
  simpl. unfold Tendencias.desviacion at 1.
  destruct (length vs) as [|[|n]] eqn:E; simpl; rewrite IH; reflexivity.
Qed.

Lemma volatilidad_promedio_cubetas (raiz : Q -> Q) (datos : list Tendencias.documento)
    (vals : list Q) :
  Tendencias.volatilidad_promedio (Tendencias.stats_por_hora raiz datos vals)
  = volatilidad_sin_unitarias raiz (cubetas datos vals).
Proof.
  unfold Tendencias.volatilidad_promedio, Tendencias.stats_por_hora, media_skipna,
    volatilidad_sin_unitarias, cubetas.
  rewrite desviaciones_definidas.
  destruct (filter _ _) as [|b r]; reflexivity.
Qed.

(** C2, what fails.  With the values 100, 100, 103 in three different
    hours every bucket has one sample: the analyzer reports NaN as average
    volatility, where the mean with single-sample buckets counted as 0 is
    0. *)
Lemma volatilidad_cubetas_unitarias_nan :
  (exists r,
     Tendencias.detectar_tendencia_significativa raiz_6_decimales (Some ejemplo_100_100_103)
       "bol2usdt" 2 = Retorna r
     /\ volatilidad_informada r = Some None)
  /\ cubetas ejemplo_100_100_103 [100; 100; 103] = [[100]; [100]; [103]]
  /\ volatilidad_con_ceros raiz_6_decimales (cubetas ejemplo_100_100_103 [100; 100; 103]) == 0.
Proof.
  split; [eexists; split; reflexivity|].
  split; vm_compute; reflexivity.
Qed.

(** The same difference in numbers: a bucket with 100, 102, 104 (standard
    deviation 2) next to a bucket with one sample gives 2, and not the 1 that
    counting the single-sample bucket as 0 would give. *)
Example volatilidad_tres_y_una :
  (exists r v,
     Tendencias.detectar_tendencia_significativa raiz_6_decimales (Some ejemplo_tres_y_una)
       "bol2usdt" 2 = Retorna r
     /\ volatilidad_informada r = Some (Some v) /\ v == 2)
  /\ volatilidad_con_ceros raiz_6_decimales
       (cubetas ejemplo_tres_y_una [100; 102; 104; 105]) == 1.
Proof.
  split; [eexists; eexists; split; [reflexivity|split; [reflexivity|]]|];
    vm_compute; reflexivity.
Qed.

(** C2, amended.  For two samples or more that carry the field, the average
    volatility the analyzer reports is the arithmetic mean of the sample
    standard deviations of the hourly buckets that hold two samples or more;
    buckets of one sample are left out of the mean, and the result is NaN when
    every bucket holds one sample. *)
Theorem volatilidad_promedio_omite_unitarias (raiz : Q -> Q)
    (datos : list Tendencias.documento) (campo : string) (umbral_variacion : Q)
    (vals : list Q) :
  (2 <= length datos)%nat -> campo_presente campo datos vals ->
  exists r,
    Tendencias.detectar_tendencia_significativa raiz (Some datos) campo umbral_variacion
    = Retorna r
    /\ volatilidad_informada r = Some (volatilidad_sin_unitarias raiz (cubetas datos vals))
    /\ ((forall vs, In vs (cubetas datos vals) -> length vs = 1%nat) ->
        volatilidad_informada r = Some None).
Proof.
  intros Hn Hp.
  rewrite (detectar_analiza raiz campo umbral_variacion datos vals Hn Hp).
  eexists. split; [reflexivity|].
  rewrite analizar_columna_volatilidad, volatilidad_promedio_cubetas.
  split; [reflexivity|].
  intros H1. unfold volatilidad_sin_unitarias.
  replace (filter (fun vs => (2 <=? length vs)%nat) (cubetas datos vals)) with (@nil (list Q));
    [reflexivity|].
  symmetry. induction (cubetas datos vals) as [|b bs IH]; [reflexivity|].
  simpl. rewrite (H1 b (or_introl eq_refl)). simpl.
  apply IH. intros vs Hvs. apply H1. right. exact Hvs.
Qed.

Lemma volatilidad_promedio_omite_unitarias_witness :
  exists r,
    Tendencias.detectar_tendencia_significativa raiz_6_decimales (Some ejemplo_tres_y_una)
      "bol2usdt" 2 = Retorna r
    /\ volatilidad_informada r
       = Some (volatilidad_sin_unitarias raiz_6_decimales
                 (cubetas ejemplo_tres_y_una [100; 102; 104; 105]))
    /\ ((forall vs, In vs (cubetas ejemplo_tres_y_una [100; 102; 104; 105]) ->
         length vs = 1%nat) ->
        volatilidad_informada r = Some None).
Proof.
  apply (volatilidad_promedio_omite_unitarias raiz_6_decimales ejemplo_tres_y_una
           "bol2usdt"%string 2 [100; 102; 104; 105]).
  - simpl. lia.
  - split; [discriminate | reflexivity].
Defined.

(** ** Theorems: the fitted slope *)

Lemma de_nat_S (n : nat) : de_nat (S n) == de_nat n + 1.
Proof.
  unfold de_nat. rewrite Nat2Z.inj_succ. unfold Z.succ.
  rewrite inject_Z_plus. reflexivity.
Qed.

Lemma de_nat_nonneg (n : nat) : 0 <= de_nat n.
Proof.
  unfold de_nat. change 0 with (inject_Z 0). rewrite <- Zle_Qle. lia.
Qed.

Lemma cruce_desarrollo (x0 y0 : Q) (x y : list Q) :
  length x = length y ->
  cruce x0 y0 x y
  == suma (Tendencias.productos x y) - x0 * suma y - y0 * suma x
     + de_nat (length x) * x0 * y0.
Proof.
  revert y. induction x as [|a x IH]; intros [|b y] Hlen; try discriminate.
  - unfold cruce, Tendencias.productos, de_nat. simpl. ring.
  - injection Hlen as Hlen. specialize (IH y Hlen).
    change (cruce x0 y0 (a :: x) (b :: y)) with ((a - x0) * (b - y0) + cruce x0 y0 x y).
    change (suma (Tendencias.productos (a :: x) (b :: y)))
      with (a * b + suma (Tendencias.productos x y)).
    change (suma (b :: y)) with (b + suma y).
    change (suma (a :: x)) with (a + suma x).
    change (length (a :: x)) with (S (length x)).
    rewrite IH, de_nat_S. ring.
Qed.

Lemma numerador_cons (x0 y0 : Q) (x y : list Q) :
  length x = length y ->
  numerador (x0 :: x) (y0 :: y) == numerador x y + cruce x0 y0 x y.
Proof.
  intros Hlen. rewrite (cruce_desarrollo x0 y0 x y Hlen). unfold numerador.
  change (suma (Tendencias.productos (x0 :: x) (y0 :: y)))
    with (x0 * y0 + suma (Tendencias.productos x y)).
  change (suma (y0 :: y)) with (y0 + suma y).
  change (suma (x0 :: x)) with (x0 + suma x).
  change (length (x0 :: x)) with (S (length x)).
  rewrite de_nat_S. ring.
Qed.

Lemma cruce_nonneg (x0 y0 : Q) (x y : list Q) :
  Forall (Qlt x0) x -> Forall (Qlt y0) y -> 0 <= cruce x0 y0 x y.
Proof.
  intros Hx. revert y. induction Hx as [|a x Ha Hx IH]; intros y Hy.
  - unfold cruce. simpl. apply Qle_refl.
  - destruct Hy as [|b y Hb Hy]; [unfold cruce; simpl; apply Qle_refl|].
    change (cruce x0 y0 (a :: x) (b :: y)) with ((a - x0) * (b - y0) + cruce x0 y0 x y).
    specialize (IH y Hy).
    assert (0 < (a - x0) * (b - y0)) by (apply Qmult_lt_0_compat; lra).
    lra.
Qed.

Lemma cruce_pos (x0 y0 a b : Q) (x y : list Q) :
  Forall (Qlt x0) (a :: x) -> Forall (Qlt y0) (b :: y) ->
  0 < cruce x0 y0 (a :: x) (b :: y).
Proof.
  intros Hx Hy. inversion Hx as [|? ? Ha Hx']; inversion Hy as [|? ? Hb Hy']; subst.
  change (cruce x0 y0 (a :: x) (b :: y)) with ((a - x0) * (b - y0) + cruce x0 y0 x y).
  pose proof (cruce_nonneg x0 y0 x y Hx' Hy').
  assert (0 < (a - x0) * (b - y0)) by (apply Qmult_lt_0_compat; lra).
  lra.
Qed.

Lemma numerador_nonneg (x y : list Q) :
  length x = length y -> StronglySorted Qlt x -> StronglySorted Qlt y ->
  0 <= numerador x y.
Proof.
  intros Hlen Hx. revert y Hlen.
  induction Hx as [|x0 x Hx IH Hx0]; intros [|y0 y] Hlen Hy;
    try (simpl in Hlen; discriminate Hlen).
  - apply Qle_bool_iff. reflexivity.
  - injection Hlen as Hlen. inversion Hy as [|? ? Hy' Hy0]; subst.
    rewrite (numerador_cons x0 y0 x y Hlen).
    pose proof (IH y Hlen Hy'). pose proof (cruce_nonneg x0 y0 x y Hx0 Hy0). lra.
Qed.

Lemma numerador_pos (x y : list Q) :
  length x = length y -> (2 <= length x)%nat ->
  StronglySorted Qlt x -> StronglySorted Qlt y ->
  0 < numerador x y.
Proof.
  intros Hlen Hn Hx Hy.
  destruct x as [|x0 [|x1 x]]; simpl in Hn; try lia.
  destruct y as [|y0 [|y1 y]]; try discriminate.
  injection Hlen as Hlen.
  inversion Hx as [|? ? Hx' Hx0]; inversion Hy as [|? ? Hy' Hy0]; subst.
  rewrite (numerador_cons x0 y0 (x1 :: x) (y1 :: y)) by (simpl; congruence).
  assert (0 <= numerador (x1 :: x) (y1 :: y))
    by (apply numerador_nonneg; [simpl; congruence | assumption | assumption]).
  pose proof (cruce_pos x0 y0 x1 y1 x y Hx0 Hy0). lra.
Qed.

Lemma de_nat_lt (a b : nat) : (a < b)%nat -> de_nat a < de_nat b.
Proof.
  intros H. unfold de_nat. rewrite <- Zlt_Qlt. lia.
Qed.

Lemma seq_de_nat_sorted (n a : nat) : StronglySorted Qlt (map de_nat (seq a n)).
Proof.
  revert a. induction n as [|n IH]; intros a; simpl; constructor.
  - apply IH.
  - apply Forall_forall. intros q Hq.
    apply in_map_iff in Hq. destruct Hq as (m & <- & Hm).
    apply in_seq in Hm. apply de_nat_lt. lia.
Qed.

Lemma arange_length (n : nat) : length (Tendencias.arange n) = n.
Proof.
  unfold Tendencias.arange. rewrite length_map, length_seq. reflexivity.
Qed.

Lemma polyfit1_pendiente (x y : list Q) :
  fst (Tendencias.polyfit1 x y) = numerador x y / numerador x x.
Proof. reflexivity. Qed.

Lemma tendencia_lineal_creciente (medias : list Q) :
  (2 <= length medias)%nat -> StronglySorted Qlt medias ->
  0 < fst (Tendencias.tendencia_lineal medias)
  /\ snd (Tendencias.tendencia_lineal medias) = Tendencias.alcista.
Proof.
  intros Hn Hy. unfold Tendencias.tendencia_lineal.
  rewrite arange_length.
  destruct (1 <? length medias)%nat eqn:E; [|apply Nat.ltb_ge in E; lia].
  rewrite polyfit1_pendiente. cbn [fst snd].
  assert (Hx : StronglySorted Qlt (Tendencias.arange (length medias)))
    by apply seq_de_nat_sorted.
  assert (Hl : length (Tendencias.arange (length medias)) = length medias)
    by apply arange_length.
  assert (HN : 0 < numerador (Tendencias.arange (length medias)) medias)
    by (apply numerador_pos; [exact Hl | rewrite Hl; exact Hn | exact Hx | exact Hy]).
  assert (HD : 0 < numerador (Tendencias.arange (length medias))
                     (Tendencias.arange (length medias)))
    by (apply numerador_pos; [reflexivity | rewrite Hl; exact Hn | exact Hx | exact Hx]).
  assert (Hp : 0 < numerador (Tendencias.arange (length medias)) medias
                   / numerador (Tendencias.arange (length medias))
                       (Tendencias.arange (length medias))).
  { apply Qlt_shift_div_l; [exact HD|]. lra. }
  split; [exact Hp|].
  apply Qlt_bool_iff in Hp. rewrite Hp. reflexivity.
Qed.

Lemma arange_dispersion (n : nat) :
  (2 <= n)%nat -> 0 < numerador (Tendencias.arange n) (Tendencias.arange n).
Proof.
  intros Hn.
  apply numerador_pos;
    [reflexivity | rewrite arange_length; exact Hn
     | apply seq_de_nat_sorted | apply seq_de_nat_sorted].
Qed.

Lemma cuadrado_nonneg (z : Q) : 0 <= z * z.
Proof. nra. Qed.

Lemma minimos_cuadrados_algebra (n Sx Sy Sxx Sxy Syy p q a b : Q) :
  0 < n -> 0 < n * Sxx - Sx * Sx ->
  p * (n * Sxx - Sx * Sx) == n * Sxy - Sx * Sy ->
  q * n == Sy - p * Sx ->
  Syy - 2 * p * Sxy - 2 * q * Sy + p * p * Sxx + 2 * p * q * Sx + n * q * q
  <= Syy - 2 * a * Sxy - 2 * b * Sy + a * a * Sxx + 2 * a * b * Sx + n * b * b.
Proof.
  intros Hn HD Hp Hq.
  assert (E2 : Sy == p * Sx + n * q) by lra.
  assert (ES : Sx * Sy == Sx * (p * Sx + n * q)) by (rewrite E2; reflexivity).
  assert (E1n : n * Sxy == n * (p * Sxx + q * Sx)) by lra.
  assert (E1 : Sxy == p * Sxx + q * Sx).
  { apply (Qmult_inj_l _ _ n); [lra | exact E1n]. }
  set (t := (Syy - 2 * a * Sxy - 2 * b * Sy + a * a * Sxx + 2 * a * b * Sx + n * b * b)
            - (Syy - 2 * p * Sxy - 2 * q * Sy + p * p * Sxx + 2 * p * q * Sx + n * q * q)).
  assert (Hid : n * t
                == (n * (b - q) + (a - p) * Sx) * (n * (b - q) + (a - p) * Sx)
                   + ((a - p) * (a - p)) * (n * Sxx - Sx * Sx)).
  { unfold t. rewrite E1, E2. ring. }
  pose proof (cuadrado_nonneg (n * (b - q) + (a - p) * Sx)) as H1.
  pose proof (cuadrado_nonneg (a - p)) as H2.
  assert (H3 : 0 <= ((a - p) * (a - p)) * (n * Sxx - Sx * Sx))
    by (apply Qmult_le_0_compat; lra).
  assert (Ht : 0 <= n * t) by lra.
  assert (H0 : 0 <= t).
  { destruct (Qlt_le_dec t 0) as [Hneg|Hpos]; [|exact Hpos].
    exfalso. assert (n * t < 0) by nra. lra. }
  unfold t in H0. lra.
Qed.

Lemma error_cuadratico_desarrollo (a b : Q) (x y : list Q) :
  length x = length y ->
  error_cuadratico a b x y
  == suma (Tendencias.productos y y) - 2 * a * suma (Tendencias.productos x y)
     - 2 * b * suma y + a * a * suma (Tendencias.productos x x)
     + 2 * a * b * suma x + de_nat (length x) * b * b.
Proof.
  revert y. induction x as [|u x IH]; intros [|v y] Hlen; try discriminate.
  - unfold error_cuadratico, Tendencias.productos, de_nat. simpl. ring.
  - injection Hlen as Hlen. specialize (IH y Hlen).
    change (error_cuadratico a b (u :: x) (v :: y))
      with ((v - (a * u + b)) * (v - (a * u + b)) + error_cuadratico a b x y).
    change (suma (Tendencias.productos (v :: y) (v :: y)))
      with (v * v + suma (Tendencias.productos y y)).
    change (suma (Tendencias.productos (u :: x) (v :: y)))
      with (u * v + suma (Tendencias.productos x y)).
    change (suma (Tendencias.productos (u :: x) (u :: x)))
      with (u * u + suma (Tendencias.productos x x)).
    change (suma (v :: y)) with (v + suma y).
    change (suma (u :: x)) with (u + suma x).
    change (length (u :: x)) with (S (length x)).
    rewrite IH, de_nat_S. ring.
Qed.

(** The line of [polyfit1] is a least-squares line: no line has a smaller
    sum of squared residuals. *)
Lemma polyfit1_minimos_cuadrados (x y : list Q) (a b : Q) :
  length x = length y -> 0 < numerador x x ->
  error_cuadratico (fst (Tendencias.polyfit1 x y)) (snd (Tendencias.polyfit1 x y)) x y
  <= error_cuadratico a b x y.
Proof.
  intros Hlen HD.
  assert (Hn : 0 < de_nat (length x)).
  { destruct x as [|u x]; [exfalso; revert HD; apply Qle_not_lt, Qle_bool_iff; reflexivity|].
    change (length (u :: x)) with (S (length x)). rewrite de_nat_S.
    pose proof (de_nat_nonneg (length x)). lra. }
  rewrite !error_cuadratico_desarrollo by exact Hlen.
  unfold numerador in HD.
  apply minimos_cuadrados_algebra; [exact Hn | exact HD | |].
  - unfold Tendencias.polyfit1. cbn [fst snd]. field. intros E. lra.
  - unfold Tendencias.polyfit1. cbn [fst snd]. field. split; intros E; lra.
Qed.

Lemma agrupar_una_por_hora (hs : list Z) (vs : list Q) :
  StronglySorted Z.lt hs ->
  Tendencias.agrupar (combine hs vs) = map (fun f => (fst f, [snd f])) (combine hs vs).
Proof.
  intros Hs. revert vs. induction Hs as [|h hs Hs IH Hh]; intros vs; [reflexivity|].
  destruct vs as [|v vs]; [reflexivity|].
  change (Tendencias.agrupar (combine (h :: hs) (v :: vs)))
    with (Tendencias.insertar h v (Tendencias.agrupar (combine hs vs))).
  rewrite IH. cbn [combine map fst snd].
  destruct (combine hs vs) as [|[h' v'] resto] eqn:E; [reflexivity|].
  cbn [map fst snd Tendencias.insertar].
  assert (Hin : In h' hs).
  { apply (in_combine_l hs vs h' v'). rewrite E. left. reflexivity. }
  rewrite Forall_forall in Hh. specialize (Hh h' Hin).
  apply Z.ltb_lt in Hh. rewrite Hh. reflexivity.
Qed.

Lemma media_uno (v : Q) : media [v] == v.
Proof.
  unfold media, suma, de_nat. simpl. field.
Qed.

Lemma medias_una_por_hora (raiz : Q -> Q) (datos : list Tendencias.documento)
    (vals : list Q) :
  length vals = length datos -> una_muestra_por_hora datos ->
  medias_por_hora raiz datos vals = map (fun v => media [v]) vals.
Proof.
  intros Hlen Hs. unfold medias_por_hora, Tendencias.stats_por_hora.
  rewrite (agrupar_una_por_hora _ vals Hs), !map_map. cbn [Tendencias.agregar Tendencias.mean snd].
  rewrite <- (length_map (fun d => Tendencias.piso_hora (Tendencias.datetime d))) in Hlen.
  revert Hlen. generalize (map (fun d => Tendencias.piso_hora (Tendencias.datetime d)) datos).
  induction vals as [|v vals IH]; intros [|h hs] Hlen; try discriminate; [reflexivity|].
  simpl. f_equal. apply IH. simpl in Hlen. congruence.
Qed.

Lemma medias_unitarias_sorted (vals : list Q) :
  StronglySorted Qlt vals -> StronglySorted Qlt (map (fun v => media [v]) vals).
Proof.
  induction 1 as [|a l Hl IH Ha]; simpl; constructor; [exact IH|].
  apply Forall_forall. intros q Hq.
  apply in_map_iff in Hq. destruct Hq as (b & <- & Hb).
  rewrite Forall_forall in Ha. rewrite !media_uno. apply Ha. exact Hb.
Qed.

Lemma analizar_columna_tendencia (raiz : Q -> Q) (datos : list Tendencias.documento)
    (campo : string) (vals : list Q) (umbral_variacion : Q) :
  let r := Tendencias.analizar_columna raiz datos campo vals umbral_variacion in
  let t := Tendencias.tendencia_lineal (medias_por_hora raiz datos vals) in
  pendiente_informada r = Some (fst t) /\ direccion_informada r = Some (snd t).
Proof.
  cbv zeta. unfold Tendencias.analizar_columna, medias_por_hora.
  destruct (Tendencias.tendencia_lineal _) as [p dir]. split; reflexivity.
Qed.

(** C7. For a strictly increasing series with one sample in each of three
    or more hours, the slope the analyzer reports is that of a least-squares
    line over the points (bucket index, bucket mean), it is strictly positive,
    and the reported direction is upward ([alcista]). *)
Theorem serie_creciente_alcista (raiz : Q -> Q) (datos : list Tendencias.documento)
    (campo : string) (umbral_variacion : Q) (vals : list Q) :
  (3 <= length datos)%nat -> campo_presente campo datos vals ->
  una_muestra_por_hora datos -> StronglySorted Qlt vals ->
  exists r pendiente,
    Tendencias.detectar_tendencia_significativa raiz (Some datos) campo umbral_variacion
    = Retorna r
    /\ pendiente_informada r = Some pendiente
    /\ pendiente
       = fst (Tendencias.polyfit1 (Tendencias.arange (length datos))
                (medias_por_hora raiz datos vals))
    /\ (forall a b,
        error_cuadratico pendiente
          (snd (Tendencias.polyfit1 (Tendencias.arange (length datos))
                  (medias_por_hora raiz datos vals)))
          (Tendencias.arange (length datos)) (medias_por_hora raiz datos vals)
        <= error_cuadratico a b
             (Tendencias.arange (length datos)) (medias_por_hora raiz datos vals))
    /\ 0 < pendiente
    /\ direccion_informada r = Some Tendencias.alcista.
Proof.
  intros Hn Hp Hh Hv.
  assert (Hn2 : (2 <= length datos)%nat) by lia.
  rewrite (detectar_analiza raiz campo umbral_variacion datos vals Hn2 Hp).
  destruct (analizar_columna_tendencia raiz datos campo vals umbral_variacion) as [Hpen Hdir].
  pose proof (columna_length campo datos vals (proj2 Hp)) as Hlen.
  assert (Hm : medias_por_hora raiz datos vals = map (fun v => media [v]) vals)
    by (apply medias_una_por_hora; assumption).
  assert (Hlm : length (medias_por_hora raiz datos vals) = length datos)
    by (rewrite Hm, length_map; exact Hlen).
  destruct (tendencia_lineal_creciente (medias_por_hora raiz datos vals)) as [Hpos Halc].
  { rewrite Hlm. exact Hn2. }
  { rewrite Hm. apply medias_unitarias_sorted. exact Hv. }
  eexists. exists (fst (Tendencias.tendencia_lineal (medias_por_hora raiz datos vals))).
  assert (Hfit : fst (Tendencias.tendencia_lineal (medias_por_hora raiz datos vals))
                 = fst (Tendencias.polyfit1 (Tendencias.arange (length datos))
                          (medias_por_hora raiz datos vals))).
  { unfold Tendencias.tendencia_lineal. rewrite arange_length, Hlm.
    destruct (1 <? length datos)%nat eqn:E; [reflexivity | apply Nat.ltb_ge in E; lia]. }
  split; [reflexivity|]. split; [exact Hpen|]. split; [exact Hfit|]. split; [|split].
  - intros a b. rewrite Hfit. apply polyfit1_minimos_cuadrados.
    + rewrite arange_length, Hlm. reflexivity.
    + apply arange_dispersion. exact Hn2.
  - exact Hpos.
  - rewrite Hdir, Halc. reflexivity.
Qed.

Lemma serie_creciente_alcista_witness :
  exists r pendiente,
    Tendencias.detectar_tendencia_significativa raiz_6_decimales (Some ejemplo_creciente)
      "bol2usdt" 2 = Retorna r
    /\ pendiente_informada r = Some pendiente
    /\ pendiente
       = fst (Tendencias.polyfit1 (Tendencias.arange (length ejemplo_creciente))
                (medias_por_hora raiz_6_decimales ejemplo_creciente [100; 101; 103; 104]))
    /\ (forall a b,
        error_cuadratico pendiente
          (snd (Tendencias.polyfit1 (Tendencias.arange (length ejemplo_creciente))
                  (medias_por_hora raiz_6_decimales ejemplo_creciente [100; 101; 103; 104])))
          (Tendencias.arange (length ejemplo_creciente))
          (medias_por_hora raiz_6_decimales ejemplo_creciente [100; 101; 103; 104])
        <= error_cuadratico a b
             (Tendencias.arange (length ejemplo_creciente))
             (medias_por_hora raiz_6_decimales ejemplo_creciente [100; 101; 103; 104]))
    /\ 0 < pendiente
    /\ direccion_informada r = Some Tendencias.alcista.
Proof.
  apply (serie_creciente_alcista raiz_6_decimales ejemplo_creciente "bol2usdt"%string 2
           [100; 101; 103; 104]).
  - simpl. lia.
  - split; [discriminate | reflexivity].
  - unfold una_muestra_por_hora. simpl. repeat constructor.
  - repeat constructor.
Defined.

(** ** Theorems: the trend type of the alert *)

Lemma analizar_columna_detalles (raiz : Q -> Q) (datos : list Tendencias.documento)
    (campo : string) (vals : list Q) (umbral_variacion : Q) :
  let r := Tendencias.analizar_columna raiz datos campo vals umbral_variacion in
  exists det,
    detalles_devueltos r = Some det
    /\ Tendencias.trend_type det
       = (if Qlt_bool 0 (variacion_devuelta r) then "ALCISTA" else "BAJISTA")%string
    /\ Tendencias.variation det = variacion_devuelta r.
Proof.
  cbv zeta. unfold Tendencias.analizar_columna.
  destruct (Tendencias.tendencia_lineal _) as [p dir].
  eexists. split; [reflexivity|]. split; reflexivity.
Qed.

(** C10. For two samples or more that carry the field, the trend type in
    the alert details follows the sign of the total variation alone: upward
    ([ALCISTA]) exactly when the total variation is strictly positive, downward
    ([BAJISTA]) otherwise, zero included.  The fitted slope plays no part, and
    the two can disagree: the hourly series 100, 98, 101, 100 has a positive
    slope (direction [alcista]) and trend type [BAJISTA]; the series 100, 103,
    99, 101 has a negative slope (direction [bajista]) and trend type
    [ALCISTA]. *)
Theorem tipo_de_tendencia_segun_variacion_total :
  (forall (raiz : Q -> Q) (datos : list Tendencias.documento) (campo : string)
          (umbral_variacion : Q) (vals : list Q),
      (2 <= length datos)%nat -> campo_presente campo datos vals ->
      exists r det,
        Tendencias.detectar_tendencia_significativa raiz (Some datos) campo umbral_variacion
        = Retorna r
        /\ detalles_devueltos r = Some det
        /\ variacion_devuelta r
           = Tendencias.calcular_variacion_porcentual (hd 0 vals) (last vals 0)
        /\ (0 < variacion_devuelta r -> Tendencias.trend_type det = "ALCISTA"%string)
        /\ (variacion_devuelta r <= 0 -> Tendencias.trend_type det = "BAJISTA"%string))
  /\ (forall raiz : Q -> Q,
      exists r det p,
        Tendencias.detectar_tendencia_significativa raiz (Some ejemplo_vuelve) "bol2usdt" 2
        = Retorna r
        /\ detalles_devueltos r = Some det
        /\ variacion_devuelta r == 0
        /\ Tendencias.trend_type det = "BAJISTA"%string
        /\ pendiente_informada r = Some p /\ 0 < p
        /\ direccion_informada r = Some Tendencias.alcista)
  /\ (forall raiz : Q -> Q,
      exists r det p,
        Tendencias.detectar_tendencia_significativa raiz (Some ejemplo_pico) "bol2usdt" 2
        = Retorna r
        /\ detalles_devueltos r = Some det
        /\ variacion_devuelta r == 1
        /\ Tendencias.trend_type det = "ALCISTA"%string
        /\ pendiente_informada r = Some p /\ p < 0
        /\ direccion_informada r = Some Tendencias.bajista).
Proof.
  split; [|split].
  - intros raiz datos campo umbral_variacion vals Hn Hp.
    rewrite (detectar_analiza raiz campo umbral_variacion datos vals Hn Hp).
    destruct (analizar_columna_detalles raiz datos campo vals umbral_variacion)
      as (det & Hdet & Htipo & _).
    destruct (analizar_columna_veredicto raiz datos campo vals umbral_variacion) as [Hv _].
    eexists. exists det. split; [reflexivity|]. split; [exact Hdet|]. split; [exact Hv|].
    rewrite Htipo. split; intros H.
    + apply Qlt_bool_iff in H. rewrite H. reflexivity.
    + apply Qlt_bool_false_iff in H. rewrite H. reflexivity.
  - intros raiz. eexists. eexists. eexists.
    repeat (split; [first [reflexivity | vm_compute; reflexivity]|]). reflexivity.
  - intros raiz. eexists. eexists. eexists.
    repeat (split; [first [reflexivity | vm_compute; reflexivity]|]). reflexivity.
Qed.

Lemma tipo_de_tendencia_segun_variacion_total_witness :
  exists r det,
    Tendencias.detectar_tendencia_significativa raiz_6_decimales (Some ejemplo_vuelve)
      "bol2usdt" 2 = Retorna r
    /\ detalles_devueltos r = Some det
    /\ variacion_devuelta r = Tendencias.calcular_variacion_porcentual 100 100
    /\ (0 < variacion_devuelta r -> Tendencias.trend_type det = "ALCISTA"%string)
    /\ (variacion_devuelta r <= 0 -> Tendencias.trend_type det = "BAJISTA"%string).
Proof.
  apply (proj1 tipo_de_tendencia_segun_variacion_total raiz_6_decimales ejemplo_vuelve
           "bol2usdt"%string 2 [100; 98; 101; 100]).
  - simpl. lia.
  - split; [discriminate | reflexivity].
Defined.

(** ** Theorems: the retry loop *)

(** An attempt fails exactly on a failed answer, whatever the side. *)
Lemma intento_falla (trade_type : string) (r : BinanceP2P.respuesta) :
  BinanceP2P.intento trade_type r = None <-> respuesta_fallida r.
Proof.
  split.
  - destruct r as [|status_code cuerpo]; [intros _; apply falla_transporte|].
    cbn [BinanceP2P.intento].
    destruct (Z.eqb_spec status_code 200) as [->|Hne];
      [|intros _; apply falla_estado; exact Hne].
    destruct cuerpo as [[|o l]|];
      [intros _; apply falla_sin_ofertas | discriminate | intros _; apply falla_cuerpo].
  - intros H. destruct H as [|status_code cuerpo Hne| |]; cbn [BinanceP2P.intento];
      try reflexivity.
    destruct (Z.eqb_spec status_code 200) as [E|_]; [contradiction | reflexivity].
Qed.

(** An attempt succeeds exactly on a 200 answer that holds an offer, and
    returns its offers sorted by price together with the raw data. *)
Lemma intento_exito (sol : BinanceP2P.solicitud) (r : BinanceP2P.respuesta)
    (par : list BinanceP2P.oferta * list BinanceP2P.oferta) :
  BinanceP2P.intento (BinanceP2P.trade_type sol) r = Some par <->
  exists ofertas, respuesta_exitosa r ofertas /\ par = par_devuelto sol ofertas.
Proof.
  unfold respuesta_exitosa, par_devuelto. split.
  - destruct r as [|status_code cuerpo]; [discriminate|].
    cbn [BinanceP2P.intento].
    destruct (Z.eqb_spec status_code 200) as [->|Hne]; [|discriminate].
    destruct cuerpo as [[|o l]|]; try discriminate.
    intros E. injection E as <-. exists (o :: l).
    split; [split; [reflexivity | discriminate] | reflexivity].
  - intros (ofertas & [-> Hne] & ->). cbn [BinanceP2P.intento Z.eqb Pos.eqb].
    destruct ofertas as [|o l]; [congruence | reflexivity].
Qed.

Section Reintentos.

Variable fuente : BinanceP2P.api.
Variable sol : BinanceP2P.solicitud.
Variable retry_delay : Z.

Lemma reintentar_primer_intento (n : nat) (w : BinanceP2P.mundo)
    (par : list BinanceP2P.oferta * list BinanceP2P.oferta) :
  resultado_intento fuente sol (BinanceP2P.llamadas w) = Some par ->
  BinanceP2P.reintentar fuente sol retry_delay (S n) w
  = (Retorna (Some par), {| BinanceP2P.llamadas := S (BinanceP2P.llamadas w);
                            BinanceP2P.esperas := BinanceP2P.esperas w |}).
Proof.
  unfold resultado_intento. intros H. cbn [BinanceP2P.reintentar]. rewrite H. reflexivity.
Qed.

Lemma reintentar_un_intento (w : BinanceP2P.mundo) :
  resultado_intento fuente sol (BinanceP2P.llamadas w) = None ->
  BinanceP2P.reintentar fuente sol retry_delay 1 w
  = (Retorna None, {| BinanceP2P.llamadas := S (BinanceP2P.llamadas w);
                      BinanceP2P.esperas := BinanceP2P.esperas w |}).
Proof.
  unfold resultado_intento. intros H. cbn [BinanceP2P.reintentar]. rewrite H. reflexivity.
Qed.

(** A failed attempt that is not the last one, with a negative delay: the
    [time.sleep] raises and the exception leaves the function. *)
Lemma reintentar_espera_negativa (n : nat) (w : BinanceP2P.mundo) :
  (retry_delay < 0)%Z ->
  resultado_intento fuente sol (BinanceP2P.llamadas w) = None ->
  BinanceP2P.reintentar fuente sol retry_delay (S (S n)) w
  = (Lanza "ValueError", {| BinanceP2P.llamadas := S (BinanceP2P.llamadas w);
                            BinanceP2P.esperas := BinanceP2P.esperas w |}).
Proof.
  unfold resultado_intento. intros Hneg H.
  cbn [BinanceP2P.reintentar]. rewrite H. unfold BinanceP2P.dormir.
  destruct (Z.ltb_spec retry_delay 0) as [_|Hge]; [reflexivity | lia].
Qed.

Hypothesis retry_delay_no_negativo : (0 <= retry_delay)%Z.

Lemma dormir_no_negativo (w : BinanceP2P.mundo) :
  BinanceP2P.dormir retry_delay w
  = Retorna {| BinanceP2P.llamadas := BinanceP2P.llamadas w;
               BinanceP2P.esperas := BinanceP2P.esperas w ++ [retry_delay] |}.
Proof.
  unfold BinanceP2P.dormir.
  destruct (Z.ltb_spec retry_delay 0) as [Hlt|_]; [lia | reflexivity].
Qed.

Lemma reintentar_todos_fallan (n : nat) (w : BinanceP2P.mundo) :
  (forall k, (k < n)%nat -> resultado_intento fuente sol (BinanceP2P.llamadas w + k)%nat = None) ->
  BinanceP2P.reintentar fuente sol retry_delay n w
  = (Retorna None,
     {| BinanceP2P.llamadas := (BinanceP2P.llamadas w + n)%nat;
        BinanceP2P.esperas := BinanceP2P.esperas w ++ repeat retry_delay (pred n) |}).
Proof.
  unfold resultado_intento.
  revert w. induction n as [|n IH]; intros [c e] H.
  - simpl. rewrite Nat.add_0_r, app_nil_r. reflexivity.
  - cbn [BinanceP2P.reintentar BinanceP2P.llamadas BinanceP2P.esperas] in *.
    pose proof (H 0%nat ltac:(lia)) as H0. rewrite Nat.add_0_r in H0. rewrite H0.
    destruct n as [|n].
    + simpl. rewrite app_nil_r. do 2 f_equal. lia.
    + rewrite dormir_no_negativo. rewrite IH.
      * cbn [BinanceP2P.llamadas BinanceP2P.esperas pred repeat].
        rewrite <- app_assoc. do 2 f_equal. lia.
      * intros k Hk. cbn [BinanceP2P.llamadas].
        replace (S c + k)%nat with (c + S k)%nat by lia. apply H. lia.
Qed.

Lemma reintentar_primer_exito (n j : nat) (w : BinanceP2P.mundo)
    (par : list BinanceP2P.oferta * list BinanceP2P.oferta) :
  (j < n)%nat ->
  (forall k, (k < j)%nat -> resultado_intento fuente sol (BinanceP2P.llamadas w + k)%nat = None) ->
  resultado_intento fuente sol (BinanceP2P.llamadas w + j)%nat = Some par ->
  BinanceP2P.reintentar fuente sol retry_delay n w
  = (Retorna (Some par),
     {| BinanceP2P.llamadas := (BinanceP2P.llamadas w + j + 1)%nat;
        BinanceP2P.esperas := BinanceP2P.esperas w ++ repeat retry_delay j |}).
Proof.
  unfold resultado_intento.
  revert j w. induction n as [|n IH]; intros j [c e] Hj Hf Hs; [lia|].
  cbn [BinanceP2P.reintentar BinanceP2P.llamadas BinanceP2P.esperas] in *.
  destruct j as [|j].
  - rewrite Nat.add_0_r in Hs. rewrite Hs. simpl. rewrite app_nil_r.
    do 2 f_equal. lia.
  - pose proof (Hf 0%nat ltac:(lia)) as H0. rewrite Nat.add_0_r in H0. rewrite H0.
    destruct n as [|n]; [lia|].
    rewrite dormir_no_negativo. rewrite (IH j).
    + cbn [BinanceP2P.llamadas BinanceP2P.esperas repeat].
      rewrite <- app_assoc. do 2 f_equal. lia.
    + lia.
    + intros k Hk. cbn [BinanceP2P.llamadas].
      replace (S c + k)%nat with (c + S k)%nat by lia. apply Hf. lia.
    + cbn [BinanceP2P.llamadas].
      replace (S c + j)%nat with (c + S j)%nat by lia. exact Hs.
Qed.

Lemma intentos_fallan_o_primer_exito (n base : nat) :
  (forall k, (k < n)%nat -> resultado_intento fuente sol (base + k)%nat = None)
  \/ exists j par, (j < n)%nat
       /\ (forall k, (k < j)%nat -> resultado_intento fuente sol (base + k)%nat = None)
       /\ resultado_intento fuente sol (base + j)%nat = Some par.
Proof.
  induction n as [|n [IH|(j & par & Hj & Hf & Hs)]].
  - left. intros k Hk. lia.
  - destruct (resultado_intento fuente sol (base + n)%nat) as [par|] eqn:E.
    + right. exists n, par. repeat split; [lia | exact IH | exact E].
    + left. intros k Hk. destruct (Nat.eq_dec k n) as [->|Hne]; [exact E | apply IH; lia].
  - right. exists j, par. repeat split; [lia | exact Hf | exact Hs].
Qed.

(** With a delay that is not negative the loop returns: nothing is raised. *)
Lemma reintentar_retorna (n : nat) (w : BinanceP2P.mundo) :
  exists res, fst (BinanceP2P.reintentar fuente sol retry_delay n w) = Retorna res.
Proof.
  destruct (intentos_fallan_o_primer_exito n (BinanceP2P.llamadas w))
    as [Hf|(j & par & Hj & Hf & Hs)].
  - rewrite (reintentar_todos_fallan n w Hf). eexists. reflexivity.
  - rewrite (reintentar_primer_exito n j w par Hj Hf Hs). eexists. reflexivity.
Qed.

End Reintentos.

(** C6. With a delay that [time.sleep] accepts, the fetch returns (nothing
    is raised), makes at most [max_retries] requests, one per attempt, and
    sleeps the same [retry_delay] between consecutive attempts.  An attempt
    fails on a transport error, on a status other than 200 whatever the body,
    and on a 200 answer whose body cannot be read or holds no offer.  The fetch
    returns the error sentinel exactly when all [max_retries] attempts fail;
    otherwise it returns the result of the first attempt that succeeds, a 200
    answer holding an offer.  Against an API whose first two answers fail and
    whose third succeeds, with [max_retries = 3], it returns the successful
    result after exactly three requests. *)
Theorem reintentos_acotados (fuente : BinanceP2P.api) (sol : BinanceP2P.solicitud)
    (max_retries retry_delay : Z) (w : BinanceP2P.mundo) :
  (0 <= retry_delay)%Z ->
  let n := Z.to_nat max_retries in
  let r := BinanceP2P.obtener_ofertas_p2p_binance fuente sol max_retries retry_delay w in
  let hechas := (BinanceP2P.llamadas (snd r) - BinanceP2P.llamadas w)%nat in
  let respuesta := fun k => fuente (BinanceP2P.llamadas w + k)%nat sol in
  (exists res, fst r = Retorna res)
  /\ (hechas <= n)%nat
  /\ BinanceP2P.llamadas (snd r) = (BinanceP2P.llamadas w + hechas)%nat
  /\ BinanceP2P.esperas (snd r)
     = BinanceP2P.esperas w ++ repeat retry_delay (pred hechas)
  /\ (fst r = Retorna None <->
      forall k, (k < n)%nat -> respuesta_fallida (respuesta k))
  /\ (fst r = Retorna None -> hechas = n)
  /\ (forall par, fst r = Retorna (Some par) ->
      exists j ofertas, (j < n)%nat /\ hechas = S j
        /\ respuesta_exitosa (respuesta j) ofertas
        /\ par = par_devuelto sol ofertas
        /\ forall k, (k < j)%nat -> respuesta_fallida (respuesta k))
  /\ (forall ofertas,
      max_retries = 3%Z ->
      respuesta_fallida (respuesta 0%nat) ->
      respuesta_fallida (respuesta 1%nat) ->
      respuesta_exitosa (respuesta 2%nat) ofertas ->
      fst r = Retorna (Some (par_devuelto sol ofertas)) /\ hechas = 3%nat).
Proof.
  intros Hdelay. cbv zeta. unfold BinanceP2P.obtener_ofertas_p2p_binance.
  assert (Hfalla : forall k, resultado_intento fuente sol k = None
                             <-> respuesta_fallida (fuente k sol))
    by (intros k; apply intento_falla).
  assert (Hexito : forall k par, resultado_intento fuente sol k = Some par
                     <-> exists ofertas, respuesta_exitosa (fuente k sol) ofertas
                                         /\ par = par_devuelto sol ofertas)
    by (intros k par; apply intento_exito).
  destruct (intentos_fallan_o_primer_exito fuente sol (Z.to_nat max_retries)
              (BinanceP2P.llamadas w)) as [Hf|(j & par & Hj & Hf & Hs)].
  - rewrite (reintentar_todos_fallan fuente sol retry_delay Hdelay _ w Hf).
    cbn [fst snd BinanceP2P.llamadas BinanceP2P.esperas].
    replace (BinanceP2P.llamadas w + Z.to_nat max_retries - BinanceP2P.llamadas w)%nat
      with (Z.to_nat max_retries) by lia.
    split; [eexists; reflexivity|].
    split; [lia|]. split; [reflexivity|]. split; [reflexivity|].
    split; [split; intros; [apply Hfalla, Hf; assumption | reflexivity]|].
    split; [reflexivity|]. split; [discriminate|].
    intros ofertas -> _ _ H2.
    assert (E : resultado_intento fuente sol (BinanceP2P.llamadas w + 2)%nat
                = Some (par_devuelto sol ofertas))
      by (apply Hexito; exists ofertas; split; [exact H2 | reflexivity]).
    rewrite (Hf 2%nat) in E by (simpl; lia). discriminate.
  - rewrite (reintentar_primer_exito fuente sol retry_delay Hdelay _ j w par Hj Hf Hs).
    cbn [fst snd BinanceP2P.llamadas BinanceP2P.esperas].
    replace (BinanceP2P.llamadas w + j + 1 - BinanceP2P.llamadas w)%nat with (S j) by lia.
    cbn [pred].
    split; [eexists; reflexivity|].
    split; [lia|]. split; [lia|]. split; [reflexivity|].
    split; [|split; [discriminate|split]].
    + split; [discriminate|]. intros H.
      pose proof (proj2 (Hfalla _) (H j Hj)) as Hnone. rewrite Hnone in Hs. discriminate.
    + intros par' E. injection E as <-.
      destruct (proj1 (Hexito _ _) Hs) as (ofertas & Hok & Hpar).
      exists j, ofertas. split; [exact Hj|]. split; [reflexivity|].
      split; [exact Hok|]. split; [exact Hpar|].
      intros k Hk. apply Hfalla, Hf. exact Hk.
    + intros ofertas -> H0 H1 H2.
      apply Hfalla in H0, H1.
      assert (E : resultado_intento fuente sol (BinanceP2P.llamadas w + 2)%nat
                  = Some (par_devuelto sol ofertas))
        by (apply Hexito; exists ofertas; split; [exact H2 | reflexivity]).
      assert (j = 2%nat) as ->.
      { destruct j as [|[|[|j]]].
        - congruence.
        - congruence.
        - reflexivity.
        - rewrite (Hf 2%nat) in E by lia. discriminate. }
      split; [congruence | reflexivity].
Qed.

Lemma reintentos_acotados_witness :
  (fst (BinanceP2P.obtener_ofertas_p2p_binance api_falla_dos_veces
          (CriptoData.solicitud_usdt "BUY") 3 60 BinanceP2P.mundo_inicial)
   = Retorna (Some ([oferta_de_precio 10; oferta_de_precio 20],
                    [oferta_de_precio 20; oferta_de_precio 10]))
   /\ (BinanceP2P.llamadas
         (snd (BinanceP2P.obtener_ofertas_p2p_binance api_falla_dos_veces
                 (CriptoData.solicitud_usdt "BUY") 3 60 BinanceP2P.mundo_inicial))
       - BinanceP2P.llamadas BinanceP2P.mundo_inicial)%nat = 3%nat)
  /\ (fst (BinanceP2P.obtener_ofertas_p2p_binance api_vacia_dos_veces
             (CriptoData.solicitud_usdt "SELL") 3 60 BinanceP2P.mundo_inicial)
      = Retorna (Some ([oferta_de_precio 20; oferta_de_precio 10],
                       [oferta_de_precio 20; oferta_de_precio 10]))
      /\ (BinanceP2P.llamadas
            (snd (BinanceP2P.obtener_ofertas_p2p_binance api_vacia_dos_veces
                    (CriptoData.solicitud_usdt "SELL") 3 60 BinanceP2P.mundo_inicial))
          - BinanceP2P.llamadas BinanceP2P.mundo_inicial)%nat = 3%nat).
Proof.
  split.
  - apply (proj2 (proj2 (proj2 (proj2 (proj2 (proj2 (proj2
             (reintentos_acotados api_falla_dos_veces (CriptoData.solicitud_usdt "BUY")
                3 60 BinanceP2P.mundo_inicial ltac:(lia))))))))
             [oferta_de_precio 20; oferta_de_precio 10]).
    + reflexivity.
    + apply falla_transporte.
    + apply falla_estado. lia.
    + split; [reflexivity | discriminate].
  - apply (proj2 (proj2 (proj2 (proj2 (proj2 (proj2 (proj2
             (reintentos_acotados api_vacia_dos_veces (CriptoData.solicitud_usdt "SELL")
                3 60 BinanceP2P.mundo_inicial ltac:(lia))))))))
             [oferta_de_precio 20; oferta_de_precio 10]).
    + reflexivity.
    + apply falla_cuerpo.
    + apply falla_sin_ofertas.
    + split; [reflexivity | discriminate].
Defined.

(** ** Theorems: the average price *)

Lemma firstn_min_length {A : Type} (a : nat) (l : list A) :
  firstn (Nat.min a (length l)) l = firstn a l.
Proof.
  destruct (Nat.le_ge_cases a (length l)) as [H|H].
  - rewrite Nat.min_l by exact H. reflexivity.
  - rewrite Nat.min_r by exact H. rewrite firstn_all, firstn_all2 by exact H. reflexivity.
Qed.

Lemma head_min (n : Z) (l : list BinanceP2P.oferta) :
  (0 <= n)%Z ->
  BinanceP2P.head (Z.min n (Z.of_nat (length l))) l = firstn (Z.to_nat n) l.
Proof.
  intros Hn. unfold BinanceP2P.head.
  destruct (0 <=? Z.min n (Z.of_nat (length l)))%Z eqn:E; [|apply Z.leb_gt in E; lia].
  rewrite Z2Nat.inj_min, Nat2Z.id. apply firstn_min_length.
Qed.

(** [redondear x n] is a multiple of [10^-n] nearest to [x], the even
    multiple when two are equally near. *)
Lemma redondear_cercano (x : Q) (ndigits : nat) :
  exists z : Z,
    redondear x ndigits = inject_Z z / inject_Z (10 ^ Z.of_nat ndigits)
    /\ Qabs (x * inject_Z (10 ^ Z.of_nat ndigits) - inject_Z z) <= 1 # 2
    /\ (Qabs (x * inject_Z (10 ^ Z.of_nat ndigits) - inject_Z z) == 1 # 2 ->
        Z.even z = true).
Proof.
  unfold redondear. cbv zeta.
  set (y := x * inject_Z (10 ^ Z.of_nat ndigits)).
  pose proof (Qfloor_le y) as Hlo.
  pose proof (Qlt_floor y) as Hhi.
  rewrite inject_Z_plus in Hhi. change (inject_Z 1) with 1 in Hhi.
  assert (Hf1 : inject_Z (Qfloor y + 1) == inject_Z (Qfloor y) + 1)
    by (rewrite inject_Z_plus; reflexivity).
  destruct (y - inject_Z (Qfloor y) ?= 1 # 2) eqn:E.
  - apply Qeq_alt in E.
    destruct (Z.even (Qfloor y)) eqn:Ev.
    + exists (Qfloor y). split; [reflexivity|]. split; [|intros _; exact Ev].
      apply Qabs_Qle_condition. split; lra.
    + exists (Qfloor y + 1)%Z. split; [reflexivity|]. split.
      * apply Qabs_Qle_condition. rewrite Hf1. split; lra.
      * intros _. rewrite Z.even_add, Ev. reflexivity.
  - apply Qlt_alt in E.
    exists (Qfloor y). split; [reflexivity|]. split.
    + apply Qabs_Qle_condition. split; lra.
    + intros Habs. rewrite Qabs_pos in Habs by lra. lra.
  - apply Qgt_alt in E.
    exists (Qfloor y + 1)%Z. split; [reflexivity|]. split.
    + apply Qabs_Qle_condition. rewrite Hf1. split; lra.
    + intros Habs. rewrite Hf1 in Habs. rewrite Qabs_neg in Habs by lra. lra.
Qed.




(** ** Theorems: building a sample *)

(** The fetches of the acquisition cycle return: their delay is 60. *)
Lemma obtener_ofertas_retorna (fuente : BinanceP2P.api) (sol : BinanceP2P.solicitud)
    (max_retries retry_delay : Z) (w : BinanceP2P.mundo) :
  (0 <= retry_delay)%Z ->
  exists res,
    fst (BinanceP2P.obtener_ofertas_p2p_binance fuente sol max_retries retry_delay w)
    = Retorna res.
Proof.
  intros Hdelay. unfold BinanceP2P.obtener_ofertas_p2p_binance.
  apply reintentar_retorna. exact Hdelay.
Qed.

(** C5. In every acquisition cycle, if the purchase-side or the sale-side
    fetch ends with the exhausted-retries result, no sample is built and the
    collection is left as it was, whatever the reference-price fetch gave; a
    sample is missing only in that case.  A failure of the reference price
    alone does not discard the sample: its [btc2usd] and [bol2btc] are 0. *)
Theorem muestra_descartada_si_falla_un_lado (ahora : Z) (precio_btc : option Q)
    (fuente : BinanceP2P.api) (mongo_disponible : bool)
    (coleccion : list CriptoData.muestra) (w : BinanceP2P.mundo) :
  let compra :=
    BinanceP2P.obtener_ofertas_p2p_binance fuente (CriptoData.solicitud_usdt "BUY") 3 60 w in
  let venta :=
    BinanceP2P.obtener_ofertas_p2p_binance fuente (CriptoData.solicitud_usdt "SELL") 3 60
      (snd compra) in
  (fst compra = Retorna None \/ fst venta = Retorna None ->
   fst (CriptoData.obtener_datos_cripto ahora precio_btc fuente w) = Retorna None
   /\ fst (CriptoData.tarea_programada ahora precio_btc fuente mongo_disponible coleccion w)
      = coleccion)
  /\ (fst (CriptoData.obtener_datos_cripto ahora precio_btc fuente w) = Retorna None ->
      fst compra = Retorna None \/ fst venta = Retorna None)
  /\ (forall df_compra raw_compra df_venta raw_venta,
      fst compra = Retorna (Some (df_compra, raw_compra)) ->
      fst venta = Retorna (Some (df_venta, raw_venta)) ->
      exists m,
        fst (CriptoData.obtener_datos_cripto ahora None fuente w) = Retorna (Some m)
        /\ CriptoData.datetime m = ahora
        /\ CriptoData.btc2usd m == 0
        /\ igual_flotante (CriptoData.bol2btc m) (Some 0)
        /\ CriptoData.bol2usdt m
           = BinanceP2P.calcular_precio_promedio (Some df_compra) 10
        /\ CriptoData.usdt2bol m
           = BinanceP2P.calcular_precio_promedio (Some df_venta) 10).
Proof.
  cbv zeta. unfold CriptoData.tarea_programada, CriptoData.obtener_datos_cripto.
  destruct (obtener_ofertas_retorna fuente (CriptoData.solicitud_usdt "BUY") 3 60 w
              ltac:(lia)) as [res_c Hc].
  destruct (BinanceP2P.obtener_ofertas_p2p_binance fuente (CriptoData.solicitud_usdt "BUY")
              3 60 w) as [sal_c w1].
  cbn [fst snd] in *. subst sal_c.
  destruct (obtener_ofertas_retorna fuente (CriptoData.solicitud_usdt "SELL") 3 60 w1
              ltac:(lia)) as [res_v Hv].
  destruct (BinanceP2P.obtener_ofertas_p2p_binance fuente (CriptoData.solicitud_usdt "SELL")
              3 60 w1) as [sal_v w2].
  cbn [fst snd] in *. subst sal_v.
  destruct res_c as [[df_c raw_c]|]; cbn [fst snd].
  - destruct res_v as [[df_v raw_v]|]; cbn [fst snd].
    + split; [intros [H|H]; discriminate H|]. split; [discriminate|].
      intros df_compra raw_compra df_venta raw_venta Ec Ev.
      injection Ec as <- <-. injection Ev as <- <-.
      eexists. split; [reflexivity|]. cbn.
      split; [reflexivity|]. split; [reflexivity|]. split; [reflexivity|].
      split; reflexivity.
    + split; [intros _; split; reflexivity|]. split; [intros _; right; reflexivity|].
      intros df_compra raw_compra df_venta raw_venta _ Ev. discriminate Ev.
  - split; [intros _; split; reflexivity|]. split; [intros _; left; reflexivity|].
    intros df_compra raw_compra df_venta raw_venta Ec. discriminate Ec.
Qed.

Lemma muestra_descartada_si_falla_un_lado_witness :
  (fst (CriptoData.obtener_datos_cripto 1714557720 (Some 64000) api_solo_compra
          BinanceP2P.mundo_inicial) = Retorna None
   /\ fst (CriptoData.tarea_programada 1714557720 (Some 64000) api_solo_compra true []
             BinanceP2P.mundo_inicial) = [])
  /\ exists m,
       fst (CriptoData.obtener_datos_cripto 1714557720 None api_sana
              BinanceP2P.mundo_inicial) = Retorna (Some m)
       /\ CriptoData.datetime m = 1714557720%Z
       /\ CriptoData.btc2usd m == 0
       /\ igual_flotante (CriptoData.bol2btc m) (Some 0)
       /\ CriptoData.bol2usdt m
          = BinanceP2P.calcular_precio_promedio
              (Some [oferta_de_precio 10; oferta_de_precio 20]) 10
       /\ CriptoData.usdt2bol m
          = BinanceP2P.calcular_precio_promedio
              (Some [oferta_de_precio 20; oferta_de_precio 10]) 10.
Proof.
  split.
  - apply (proj1 (muestra_descartada_si_falla_un_lado 1714557720 (Some 64000)
                    api_solo_compra true [] BinanceP2P.mundo_inicial)).
    right. reflexivity.
  - apply (proj2 (proj2 (muestra_descartada_si_falla_un_lado 1714557720 None
                           api_sana true [] BinanceP2P.mundo_inicial))
             [oferta_de_precio 10; oferta_de_precio 20]
             [oferta_de_precio 20; oferta_de_precio 10]
             [oferta_de_precio 20; oferta_de_precio 10]
             [oferta_de_precio 20; oferta_de_precio 10]); reflexivity.
Defined.

(** * Further properties of the code *)

(** ** Percentage variation *)

(** X1. The sign of the percentage variation.  For a positive initial value
    the variation is positive, zero or negative as the final value is above,
    at or below the initial one; for a negative initial value the sign is the
    opposite. *)
Theorem variacion_porcentual_signo (valor_inicial valor_final : Q) :
  let v := Tendencias.calcular_variacion_porcentual valor_inicial valor_final in
  (0 < valor_inicial ->
   (0 < v <-> valor_inicial < valor_final)
   /\ (v == 0 <-> valor_final == valor_inicial)
   /\ (v < 0 <-> valor_final < valor_inicial))
  /\ (valor_inicial < 0 ->
      (0 < v <-> valor_final < valor_inicial)
      /\ (v == 0 <-> valor_final == valor_inicial)
      /\ (v < 0 <-> valor_inicial < valor_final)).
Proof.
  cbv zeta. unfold Tendencias.calcular_variacion_porcentual.
  destruct (Qeq_bool valor_inicial 0) eqn:E.
  - apply Qeq_bool_iff in E. split; intros H; exfalso; lra.
  - apply Qeq_bool_false_neq in E.
    assert (Hd : (valor_final - valor_inicial) / valor_inicial * 100 * valor_inicial
                 == (valor_final - valor_inicial) * 100) by (field; exact E).
    set (v := (valor_final - valor_inicial) / valor_inicial * 100) in *.
    assert (Hcero : v == 0 <-> valor_final == valor_inicial).
    { split; intros H.
      - assert (v * valor_inicial == 0) by (rewrite H; ring). lra.
      - assert (H0 : v * valor_inicial == 0) by lra.
        apply Qmult_integral in H0. destruct H0 as [H0|H0]; [exact H0 | contradiction]. }
    split; intros Hsigno; (split; [|split; [exact Hcero|]]); split; intros H.
    + assert (0 < v * valor_inicial) by (apply Qmult_lt_0_compat; assumption). lra.
    + destruct (Qlt_le_dec 0 v) as [Hp|Hn]; [exact Hp|]. exfalso.
      assert (0 <= (- v) * valor_inicial) by (apply Qmult_le_0_compat; lra). lra.
    + assert (0 < (- v) * valor_inicial) by (apply Qmult_lt_0_compat; lra). lra.
    + destruct (Qlt_le_dec v 0) as [Hp|Hn]; [exact Hp|]. exfalso.
      assert (0 <= v * valor_inicial) by (apply Qmult_le_0_compat; lra). lra.
    + assert (0 < v * (- valor_inicial)) by (apply Qmult_lt_0_compat; lra). lra.
    + destruct (Qlt_le_dec 0 v) as [Hp|Hn]; [exact Hp|]. exfalso.
      assert (0 <= (- v) * (- valor_inicial)) by (apply Qmult_le_0_compat; lra). lra.
    + assert (0 < (- v) * (- valor_inicial)) by (apply Qmult_lt_0_compat; lra). lra.
    + destruct (Qlt_le_dec v 0) as [Hp|Hn]; [exact Hp|]. exfalso.
      assert (0 <= v * (- valor_inicial)) by (apply Qmult_le_0_compat; lra). lra.
Qed.

Lemma variacion_porcentual_signo_witness :
  (0 < Tendencias.calcular_variacion_porcentual 100 103 <-> 100 < 103)
  /\ (Tendencias.calcular_variacion_porcentual 100 103 == 0 <-> 103 == 100)
  /\ (Tendencias.calcular_variacion_porcentual 100 103 < 0 <-> 103 < 100).
Proof.
  apply (proj1 (variacion_porcentual_signo 100 103)). reflexivity.
Defined.

(** ** The hourly statistics *)

Lemma minimo_lista_cota (l : list Q) (x : Q) :
  Tendencias.minimo_lista x l <= x
  /\ forall v, In v l -> Tendencias.minimo_lista x l <= v.
Proof.
  unfold Tendencias.minimo_lista.
  revert x. induction l as [|a l IH]; intros x; simpl.
  - split; [apply Qle_refl | intros v []].
  - destruct (Qlt_bool a x) eqn:E.
    + apply Qlt_bool_iff in E. destruct (IH a) as [Ha Hl]. split.
      * apply Qle_trans with a; [exact Ha | apply Qlt_le_weak; exact E].
      * intros v [<-|Hv]; [exact Ha | apply Hl; exact Hv].
    + apply Qlt_bool_false_iff in E. destruct (IH x) as [Hx Hl]. split.
      * exact Hx.
      * intros v [<-|Hv]; [apply Qle_trans with x; assumption | apply Hl; exact Hv].
Qed.

Lemma suma_acotada (l : list Q) (lo hi : Q) :
  Forall (fun v => lo <= v <= hi) l ->
  de_nat (length l) * lo <= suma l <= de_nat (length l) * hi.
Proof.
  induction 1 as [|v l [Hlo Hhi] Hl [IHlo IHhi]].
  - change (0 * lo <= 0 <= 0 * hi). lra.
  - change (suma (v :: l)) with (v + suma l).
    change (length (v :: l)) with (S (length l)). rewrite de_nat_S. lra.
Qed.

Lemma media_acotada (l : list Q) (lo hi : Q) :
  l <> [] -> Forall (fun v => lo <= v <= hi) l -> lo <= media l <= hi.
Proof.
  intros Hne Hl. destruct (suma_acotada l lo hi Hl) as [Hlo Hhi].
  assert (Hn : 0 < de_nat (length l)).
  { destruct l as [|v l]; [congruence|].
    change (length (v :: l)) with (S (length l)). rewrite de_nat_S.
    pose proof (de_nat_nonneg (length l)). lra. }
  unfold media. split.
  - apply Qle_shift_div_l; [exact Hn | lra].
  - apply Qle_shift_div_r; [exact Hn | lra].
Qed.

Lemma insertar_total (k : Z) (v : Q) (grupos : list (Z * list Q)) :
  list_sum (map (fun g => length (snd g)) (Tendencias.insertar k v grupos))
  = S (list_sum (map (fun g => length (snd g)) grupos)).
Proof.
  induction grupos as [|[k' vs] grupos IH]; cbn [Tendencias.insertar]; [reflexivity|].
  destruct (k <? k')%Z; [reflexivity|].
  destruct (k =? k')%Z; [reflexivity|].
  change (length vs
          + list_sum (map (fun g => length (snd g)) (Tendencias.insertar k v grupos))
          = S (length vs + list_sum (map (fun g => length (snd g)) grupos)))%nat.
  rewrite IH. lia.
Qed.

Lemma agrupar_total (filas : list (Z * Q)) :
  list_sum (map (fun g => length (snd g)) (Tendencias.agrupar filas)) = length filas.
Proof.
  induction filas as [|[k v] filas IH]; [reflexivity|].
  change (Tendencias.agrupar ((k, v) :: filas))
    with (Tendencias.insertar k v (Tendencias.agrupar filas)).
  rewrite insertar_total, IH. reflexivity.
Qed.

Lemma filas_de_combine (f : Tendencias.documento -> Z) (datos : list Tendencias.documento)
    (vals : list Q) (k : Z) :
  length vals = length datos ->
  length (filas_de k (combine (map f datos) vals))
  = length (filter (fun d => (f d =? k)%Z) datos).
Proof.
  unfold filas_de. revert vals.
  induction datos as [|d datos IH]; intros [|v vals] Hlen; try discriminate; [reflexivity|].
  cbn [map combine filter fst]. injection Hlen as Hlen.
  destruct (f d =? k)%Z; cbn [map length]; rewrite IH by exact Hlen; reflexivity.
Qed.



(** ** Series within one hour *)

Lemma agrupar_misma_hora (h : Z) (filas : list (Z * Q)) :
  filas <> [] -> (forall f, In f filas -> fst f = h) ->
  Tendencias.agrupar filas = [(h, map snd filas)].
Proof.
  induction filas as [|[k v] filas IH]; intros Hne Hh; [congruence|].
  change (Tendencias.agrupar ((k, v) :: filas))
    with (Tendencias.insertar k v (Tendencias.agrupar filas)).
  assert (k = h) as -> by (apply (Hh (k, v)); left; reflexivity).
  destruct filas as [|f filas]; [reflexivity|].
  rewrite IH; [|discriminate|intros f' Hf'; apply Hh; right; exact Hf'].
  cbn [Tendencias.insertar]. rewrite Z.ltb_irrefl, Z.eqb_refl. reflexivity.
Qed.

Lemma combine_snd (hs : list Z) (vals : list Q) :
  length vals = length hs -> map snd (combine hs vals) = vals.
Proof.
  revert vals. induction hs as [|h hs IH]; intros [|v vals] Hlen; try discriminate;
    [reflexivity|].
  simpl. f_equal. apply IH. simpl in Hlen. congruence.
Qed.

Lemma cubetas_misma_hora (datos : list Tendencias.documento) (vals : list Q) (h : Z) :
  datos <> [] -> length vals = length datos ->
  (forall d, In d datos -> Tendencias.piso_hora (Tendencias.datetime d) = h) ->
  Tendencias.agrupar
    (combine (map (fun d => Tendencias.piso_hora (Tendencias.datetime d)) datos) vals)
  = [(h, vals)].
Proof.
  intros Hne Hlen Hh.
  rewrite (agrupar_misma_hora h).
  - rewrite combine_snd by (rewrite length_map; exact Hlen). reflexivity.
  - destruct datos as [|d datos]; [congruence|]. destruct vals; [discriminate|]. discriminate.
  - intros [k v] Hin. apply in_combine_l in Hin. apply in_map_iff in Hin.
    destruct Hin as (d & <- & Hd). apply Hh. exact Hd.
Qed.

(** X3. When all the samples (two or more, all carrying the field) fall
    within one hour there is a single bucket: the report counts one hour, the
    slope is 0 and the direction [neutral], the largest variation between hours
    is 0, the average volatility is the standard deviation of all the values,
    and the verdict is decided by the end-to-end variation alone. *)
Theorem serie_en_una_hora (raiz : Q -> Q) (datos : list Tendencias.documento)
    (campo : string) (umbral_variacion : Q) (vals : list Q) (h : Z) :
  (2 <= length datos)%nat -> campo_presente campo datos vals ->
  (forall d, In d datos -> Tendencias.piso_hora (Tendencias.datetime d) = h) ->
  exists r volatilidad,
    Tendencias.detectar_tendencia_significativa raiz (Some datos) campo umbral_variacion
    = Retorna r
    /\ horas_informadas r = Some 1%nat
    /\ pendiente_informada r = Some 0
    /\ direccion_informada r = Some Tendencias.neutral
    /\ variacion_maxima_informada r = Some 0
    /\ volatilidad_informada r = Some (Some volatilidad)
    /\ volatilidad == raiz (Tendencias.varianza_muestral vals)
    /\ (significativa r = true <-> umbral_variacion <= Qabs (variacion_devuelta r)).
Proof.
  intros Hn Hp Hh.
  pose proof (columna_length campo datos vals (proj2 Hp)) as Hlen.
  rewrite (detectar_analiza raiz campo umbral_variacion datos vals Hn Hp).
  unfold Tendencias.analizar_columna, Tendencias.stats_por_hora.
  rewrite (cubetas_misma_hora datos vals h);
    [|destruct datos; simpl in Hn; [lia | discriminate] | exact Hlen | exact Hh].
  cbn [map Tendencias.agregar Tendencias.mean snd fst].
  change (Tendencias.tendencia_lineal [media vals]) with (0, Tendencias.neutral).
  change (Tendencias.variacion_maxima_entre_horas [media vals]) with 0.
  assert (E : (length vals <? 2)%nat = false) by (apply Nat.ltb_ge; lia).
  assert (Hvol : Tendencias.volatilidad_promedio [Tendencias.agregar raiz (h, vals)]
                 = Some (media [raiz (Tendencias.varianza_muestral vals)])).
  { unfold Tendencias.volatilidad_promedio, media_skipna.
    change (map Tendencias.std [Tendencias.agregar raiz (h, vals)])
      with [Tendencias.desviacion raiz vals].
    unfold Tendencias.desviacion. rewrite E. reflexivity. }
  rewrite Hvol.
  eexists. exists (media [raiz (Tendencias.varianza_muestral vals)]).
  split; [reflexivity|].
  cbn [horas_informadas pendiente_informada direccion_informada variacion_maxima_informada
       volatilidad_informada significativa variacion_devuelta length].
  repeat (split; [reflexivity|]).
  split; [apply media_uno|].
  rewrite orb_true_iff, !Qle_bool_iff. split; [|intros H; left; exact H].
  intros [H|H]; [exact H|].
  apply Qle_trans with 0; [exact H | apply Qabs_nonneg].
Qed.

Lemma serie_en_una_hora_witness :
  exists r volatilidad,
    Tendencias.detectar_tendencia_significativa raiz_6_decimales (Some ejemplo_una_hora)
      "bol2usdt" 2 = Retorna r
    /\ horas_informadas r = Some 1%nat
    /\ pendiente_informada r = Some 0
    /\ direccion_informada r = Some Tendencias.neutral
    /\ variacion_maxima_informada r = Some 0
    /\ volatilidad_informada r = Some (Some volatilidad)
    /\ volatilidad
       == raiz_6_decimales (Tendencias.varianza_muestral [100; 102; 104; 101])
    /\ (significativa r = true <-> 2 <= Qabs (variacion_devuelta r)).
Proof.
  apply (serie_en_una_hora raiz_6_decimales ejemplo_una_hora "bol2usdt"%string 2
           [100; 102; 104; 101] 1714557600%Z).
  - simpl. lia.
  - split; [discriminate | reflexivity].
  - intros d Hd. simpl in Hd.
    destruct Hd as [<-|[<-|[<-|[<-|[]]]]]; reflexivity.
Defined.

(** ** The retry loop with a negative delay *)

(** X5. A negative [retry_delay] matters only when a failed attempt is
    followed by another: the [time.sleep] between them raises [ValueError],
    outside the [try], and the fetch ends after that one request without
    having slept.  When the first attempt succeeds, when a single attempt is
    allowed, or when none is, the delay is never used. *)
Theorem espera_negativa (fuente : BinanceP2P.api) (sol : BinanceP2P.solicitud)
    (max_retries retry_delay : Z) (w : BinanceP2P.mundo) :
  (retry_delay < 0)%Z ->
  let r := BinanceP2P.obtener_ofertas_p2p_binance fuente sol max_retries retry_delay w in
  let un_intento := {| BinanceP2P.llamadas := S (BinanceP2P.llamadas w);
                       BinanceP2P.esperas := BinanceP2P.esperas w |} in
  ((2 <= max_retries)%Z -> respuesta_fallida (fuente (BinanceP2P.llamadas w) sol) ->
   r = (Lanza "ValueError", un_intento))
  /\ (forall ofertas,
      (1 <= max_retries)%Z ->
      respuesta_exitosa (fuente (BinanceP2P.llamadas w) sol) ofertas ->
      r = (Retorna (Some (par_devuelto sol ofertas)), un_intento))
  /\ (max_retries = 1%Z -> respuesta_fallida (fuente (BinanceP2P.llamadas w) sol) ->
      r = (Retorna None, un_intento))
  /\ ((max_retries <= 0)%Z -> r = (Retorna None, w)).
Proof.
  intros Hneg. cbv zeta. unfold BinanceP2P.obtener_ofertas_p2p_binance.
  split; [|split; [|split]].
  - intros Hmax Hfalla.
    destruct (Z.to_nat max_retries) as [|[|n]] eqn:En; [lia | lia |].
    apply reintentar_espera_negativa; [exact Hneg|].
    apply intento_falla. exact Hfalla.
  - intros ofertas Hmax Hexito.
    destruct (Z.to_nat max_retries) as [|n] eqn:En; [lia|].
    apply reintentar_primer_intento.
    apply intento_exito. exists ofertas. split; [exact Hexito | reflexivity].
  - intros -> Hfalla. change (Z.to_nat 1) with 1%nat.
    apply reintentar_un_intento. apply intento_falla. exact Hfalla.
  - intros Hmax. replace (Z.to_nat max_retries) with 0%nat by lia. reflexivity.
Qed.

Lemma espera_negativa_witness :
  BinanceP2P.obtener_ofertas_p2p_binance api_caida (CriptoData.solicitud_usdt "BUY") 3 (-1)
    BinanceP2P.mundo_inicial
  = (Lanza "ValueError", {| BinanceP2P.llamadas := 1; BinanceP2P.esperas := [] |}).
Proof.
  apply (proj1 (espera_negativa api_caida (CriptoData.solicitud_usdt "BUY") 3 (-1)
                  BinanceP2P.mundo_inicial ltac:(lia))).
  - lia.
  - apply falla_transporte.
Defined.

(** ** The effects of an acquisition cycle *)

(** With a delay that is not negative and one attempt or more allowed, a
    fetch returns after between one and [max_retries] requests, having slept
    [retry_delay] between consecutive requests. *)
Lemma obtener_ofertas_efectos (fuente : BinanceP2P.api) (sol : BinanceP2P.solicitud)
    (max_retries retry_delay : Z) (w : BinanceP2P.mundo) :
  (0 <= retry_delay)%Z -> (1 <= max_retries)%Z ->
  exists res hechas,
    (1 <= hechas <= Z.to_nat max_retries)%nat
    /\ BinanceP2P.obtener_ofertas_p2p_binance fuente sol max_retries retry_delay w
       = (Retorna res,
          {| BinanceP2P.llamadas := (BinanceP2P.llamadas w + hechas)%nat;
             BinanceP2P.esperas := BinanceP2P.esperas w ++ repeat retry_delay (pred hechas) |}).
Proof.
  intros Hdelay Hmax. unfold BinanceP2P.obtener_ofertas_p2p_binance.
  destruct (intentos_fallan_o_primer_exito fuente sol (Z.to_nat max_retries)
              (BinanceP2P.llamadas w)) as [Hf|(j & par & Hj & Hf & Hs)].
  - exists None, (Z.to_nat max_retries). split; [lia|].
    apply reintentar_todos_fallan; assumption.
  - exists (Some par), (S j). split; [lia|].
    rewrite (reintentar_primer_exito fuente sol retry_delay Hdelay _ j w par Hj Hf Hs).
    cbn [pred]. do 2 f_equal. lia.
Qed.

(** X6. One acquisition cycle makes between one and six requests to the
    API and sleeps at most four times, 60 seconds each time and always between
    two requests; the collection is left as it was or gains one sample at its
    end, the sample built in this cycle, and it is left as it was whenever
    storage is unavailable. *)
Theorem ciclo_de_adquisicion_acotado (ahora : Z) (precio_btc : option Q)
    (fuente : BinanceP2P.api) (mongo_disponible : bool)
    (coleccion : list CriptoData.muestra) (w : BinanceP2P.mundo) :
  let r := CriptoData.tarea_programada ahora precio_btc fuente mongo_disponible coleccion w in
  let hechas := (BinanceP2P.llamadas (snd r) - BinanceP2P.llamadas w)%nat in
  (1 <= hechas <= 6)%nat
  /\ BinanceP2P.llamadas (snd r) = (BinanceP2P.llamadas w + hechas)%nat
  /\ (exists k, (k <= 4)%nat /\ (k < hechas)%nat
                /\ BinanceP2P.esperas (snd r) = BinanceP2P.esperas w ++ repeat 60%Z k)
  /\ snd r = snd (CriptoData.obtener_datos_cripto ahora precio_btc fuente w)
  /\ (fst r = coleccion
      \/ exists m, fst r = coleccion ++ [m]
                   /\ fst (CriptoData.obtener_datos_cripto ahora precio_btc fuente w)
                      = Retorna (Some m))
  /\ (mongo_disponible = false -> fst r = coleccion)
  /\ (forall m, mongo_disponible = true ->
                fst (CriptoData.obtener_datos_cripto ahora precio_btc fuente w)
                = Retorna (Some m) ->
                fst r = coleccion ++ [m]).
Proof.
  cbv zeta. unfold CriptoData.tarea_programada, CriptoData.obtener_datos_cripto.
  destruct (obtener_ofertas_efectos fuente (CriptoData.solicitud_usdt "BUY") 3 60 w
              ltac:(lia) ltac:(lia)) as (res_c & h1 & Hh1 & ->).
  change (Z.to_nat 3) with 3%nat in Hh1.
  destruct res_c as [[df_c raw_c]|]; cbn [fst snd BinanceP2P.llamadas BinanceP2P.esperas].
  - destruct (obtener_ofertas_efectos fuente (CriptoData.solicitud_usdt "SELL") 3 60
                {| BinanceP2P.llamadas := (BinanceP2P.llamadas w + h1)%nat;
                   BinanceP2P.esperas := BinanceP2P.esperas w ++ repeat 60%Z (pred h1) |}
                ltac:(lia) ltac:(lia)) as (res_v & h2 & Hh2 & ->).
    change (Z.to_nat 3) with 3%nat in Hh2.
    cbn [BinanceP2P.llamadas BinanceP2P.esperas].
    assert (Hesp : exists k, (k <= 4)%nat
                     /\ (k < BinanceP2P.llamadas w + h1 + h2 - BinanceP2P.llamadas w)%nat
                     /\ (BinanceP2P.esperas w ++ repeat 60%Z (pred h1)) ++ repeat 60%Z (pred h2)
                        = BinanceP2P.esperas w ++ repeat 60%Z k).
    { exists (pred h1 + pred h2)%nat. split; [lia|]. split; [lia|].
      rewrite <- app_assoc, repeat_app. reflexivity. }
    destruct res_v as [[df_v raw_v]|]; cbn [fst snd BinanceP2P.llamadas BinanceP2P.esperas].
    + split; [lia|]. split; [lia|]. split; [exact Hesp|]. split; [reflexivity|].
      unfold CriptoData.guardar_datos_mongodb.
      destruct mongo_disponible; cbn [fst snd].
      * split; [right; eexists; split; reflexivity|]. split; [discriminate|].
        intros m _ E. injection E as <-. reflexivity.
      * split; [left; reflexivity|]. split; [reflexivity|]. discriminate.
    + split; [lia|]. split; [lia|]. split; [exact Hesp|]. split; [reflexivity|].
      split; [left; reflexivity|]. split; [reflexivity|]. intros m _ E. discriminate E.
  - split; [lia|]. split; [lia|].
    split; [exists (pred h1); repeat split; [lia | lia]|].
    split; [reflexivity|].
    split; [left; reflexivity|]. split; [reflexivity|]. intros m _ E. discriminate E.
Qed.

(** ** The three rates of [analizar_tendencias] *)

Lemma analizar_columna_tupla4 (raiz : Q -> Q) (datos : list Tendencias.documento)
    (campo : string) (vals : list Q) (umbral_variacion : Q) :
  exists h v m d,
    Tendencias.analizar_columna raiz datos campo vals umbral_variacion
    = Tendencias.Tupla4 h v m d.
Proof.
  unfold Tendencias.analizar_columna.
  destruct (Tendencias.tendencia_lineal
              (map Tendencias.mean (Tendencias.stats_por_hora raiz datos vals))) as [p dir].
  do 4 eexists. reflexivity.
Qed.

(** Unpacking four components of an analysis that went through. *)
Lemma desempaquetar4_analiza (raiz : Q -> Q) (datos : list Tendencias.documento)
    (campo : string) (vals : list Q) (umbral_variacion : Q) :
  (2 <= length datos)%nat -> campo_presente campo datos vals ->
  exists r h v m d,
    Tendencias.detectar_tendencia_significativa raiz (Some datos) campo umbral_variacion
    = Retorna r
    /\ Tendencias.desempaquetar4 (Retorna r) = Retorna (h, v, m, d)
    /\ entrada_de r = {| Tendencias.entrada_hay_tendencia := h;
                         Tendencias.entrada_detalles := Some d |}.
Proof.
  intros Hn Hp.
  rewrite (detectar_analiza raiz campo umbral_variacion datos vals Hn Hp).
  destruct (analizar_columna_tupla4 raiz datos campo vals umbral_variacion)
    as (h & v & m & d & ->).
  exists (Tendencias.Tupla4 h v m d), h, v, m, d. repeat split.
Qed.

Lemma desempaquetar4_salida_anticipada (raiz : Q -> Q)
    (datos : option (list Tendencias.documento)) (campo : string) (umbral_variacion : Q) :
  (numero_muestras datos < 2)%nat \/ campo_ausente campo datos ->
  Tendencias.desempaquetar4
    (Tendencias.detectar_tendencia_significativa raiz datos campo umbral_variacion)
  = Lanza "ValueError".
Proof.
  intros H.
  destruct (detectar_salida_anticipada raiz campo umbral_variacion datos H) as [msg ->].
  reflexivity.
Qed.

(** X7. [analizar_tendencias] over the stored documents.  Without documents
    it returns the initial result, no trend for any rate.  With two documents
    or more that all carry the three rates it returns, for each rate, the
    verdict and the details of the analyzer, run with threshold 2 on
    [bol2usdt] and [usdt2bol] and with threshold 5 on [btc2usd].  When a rate
    is carried by no document, the unpacking of its analysis raises
    [ValueError] and no result is returned, also for the rates analysed
    before. *)
Theorem analizar_tendencias_por_tasa (raiz : Q -> Q) :
  (Tendencias.analizar_tendencias raiz None = Retorna resultados_iniciales
   /\ Tendencias.analizar_tendencias raiz (Some []) = Retorna resultados_iniciales)
  /\ (forall datos v_compra v_venta v_btc,
      (2 <= length datos)%nat ->
      campo_presente "bol2usdt" datos v_compra ->
      campo_presente "usdt2bol" datos v_venta ->
      campo_presente "btc2usd" datos v_btc ->
      exists r_compra r_venta r_btc,
        Tendencias.detectar_tendencia_significativa raiz (Some datos) "bol2usdt" 2
        = Retorna r_compra
        /\ Tendencias.detectar_tendencia_significativa raiz (Some datos) "usdt2bol" 2
           = Retorna r_venta
        /\ Tendencias.detectar_tendencia_significativa raiz (Some datos) "btc2usd" 5
           = Retorna r_btc
        /\ Tendencias.analizar_tendencias raiz (Some datos)
           = Retorna {| Tendencias.res_bol2usdt := entrada_de r_compra;
                        Tendencias.res_usdt2bol := entrada_de r_venta;
                        Tendencias.res_btc2usd := entrada_de r_btc |}
        /\ componentes r_compra = 4%nat /\ componentes r_venta = 4%nat
        /\ componentes r_btc = 4%nat)
  /\ (forall datos,
      datos <> [] -> campo_ausente "bol2usdt" (Some datos) ->
      Tendencias.analizar_tendencias raiz (Some datos) = Lanza "ValueError")
  /\ (forall datos v_compra,
      (2 <= length datos)%nat ->
      campo_presente "bol2usdt" datos v_compra ->
      campo_ausente "usdt2bol" (Some datos) ->
      Tendencias.analizar_tendencias raiz (Some datos) = Lanza "ValueError")
  /\ (forall datos v_compra v_venta,
      (2 <= length datos)%nat ->
      campo_presente "bol2usdt" datos v_compra ->
      campo_presente "usdt2bol" datos v_venta ->
      campo_ausente "btc2usd" (Some datos) ->
      Tendencias.analizar_tendencias raiz (Some datos) = Lanza "ValueError").
Proof.
  split; [split; reflexivity|].
  split; [|split; [|split]].
  - intros datos v1 v2 v3 Hn H1 H2 H3.
    destruct (desempaquetar4_analiza raiz datos "bol2usdt" v1 2 Hn H1)
      as (r1 & h1 & x1 & m1 & d1 & E1 & U1 & F1).
    destruct (desempaquetar4_analiza raiz datos "usdt2bol" v2 2 Hn H2)
      as (r2 & h2 & x2 & m2 & d2 & E2 & U2 & F2).
    destruct (desempaquetar4_analiza raiz datos "btc2usd" v3 5 Hn H3)
      as (r3 & h3 & x3 & m3 & d3 & E3 & U3 & F3).
    exists r1, r2, r3.
    split; [exact E1|]. split; [exact E2|]. split; [exact E3|].
    split.
    + unfold Tendencias.analizar_tendencias.
      destruct datos as [|d datos]; [simpl in Hn; lia|].
      rewrite E1, E2, E3, U1, U2, U3, F1, F2, F3. reflexivity.
    + destruct r1, r2, r3; try discriminate U1; try discriminate U2; try discriminate U3.
      repeat split.
  - intros datos Hne Ha.
    unfold Tendencias.analizar_tendencias.
    destruct datos as [|d datos]; [congruence|].
    rewrite (desempaquetar4_salida_anticipada raiz (Some (d :: datos)) "bol2usdt" 2
               (or_intror Ha)).
    reflexivity.
  - intros datos v1 Hn H1 Ha.
    destruct (desempaquetar4_analiza raiz datos "bol2usdt" v1 2 Hn H1)
      as (r1 & h1 & x1 & m1 & d1 & E1 & U1 & F1).
    unfold Tendencias.analizar_tendencias.
    destruct datos as [|d datos]; [simpl in Hn; lia|].
    rewrite E1, U1.
    rewrite (desempaquetar4_salida_anticipada raiz (Some (d :: datos)) "usdt2bol" 2
               (or_intror Ha)).
    reflexivity.
  - intros datos v1 v2 Hn H1 H2 Ha.
    destruct (desempaquetar4_analiza raiz datos "bol2usdt" v1 2 Hn H1)
      as (r1 & h1 & x1 & m1 & d1 & E1 & U1 & F1).
    destruct (desempaquetar4_analiza raiz datos "usdt2bol" v2 2 Hn H2)
      as (r2 & h2 & x2 & m2 & d2 & E2 & U2 & F2).
    unfold Tendencias.analizar_tendencias.
    destruct datos as [|d datos]; [simpl in Hn; lia|].
    rewrite E1, U1, E2, U2.
    rewrite (desempaquetar4_salida_anticipada raiz (Some (d :: datos)) "btc2usd" 5
               (or_intror Ha)).
    reflexivity.
Qed.

Lemma analizar_tendencias_por_tasa_witness :
  exists r_compra r_venta r_btc,
    Tendencias.detectar_tendencia_significativa raiz_6_decimales (Some ejemplo_tasas)
      "bol2usdt" 2 = Retorna r_compra
    /\ Tendencias.detectar_tendencia_significativa raiz_6_decimales (Some ejemplo_tasas)
         "usdt2bol" 2 = Retorna r_venta
    /\ Tendencias.detectar_tendencia_significativa raiz_6_decimales (Some ejemplo_tasas)
         "btc2usd" 5 = Retorna r_btc
    /\ Tendencias.analizar_tendencias raiz_6_decimales (Some ejemplo_tasas)
       = Retorna {| Tendencias.res_bol2usdt := entrada_de r_compra;
                    Tendencias.res_usdt2bol := entrada_de r_venta;
                    Tendencias.res_btc2usd := entrada_de r_btc |}
    /\ componentes r_compra = 4%nat /\ componentes r_venta = 4%nat
    /\ componentes r_btc = 4%nat.
Proof.
  apply (proj1 (proj2 (analizar_tendencias_por_tasa raiz_6_decimales)) ejemplo_tasas
           [100; 101; 103] [99; 99; 100] [64000; 64100; 64200]).
  - simpl. lia.
  - split; [discriminate | reflexivity].
  - split; [discriminate | reflexivity].
  - split; [discriminate | reflexivity].
Defined.
